(** * AdminDashboard: live collections, submit handlers and derived views

    A shallow embedding of [src/components/dashboards/AdminDashboard.tsx].
    The component mirrors four remote collections into local state, offers
    form-driven create and delete commands, and derives a few report values.

    Conventions of the embedding:
    - a JavaScript record is a finite map from field names to string values
      (the declared interfaces only have string fields); a field that is not
      in the map reads as [undefined], modelled by [None];
    - a JavaScript number that may be [NaN] is an [option Z], [None] being
      [NaN];
    - calls into the remote store adapter and the toast hook are recorded in
      the order the handlers issue them;
    - what the language leaves to the runtime is a parameter of the
      embedding: the date parser, the engine's [Array.prototype.sort] and
      the collation behind [localeCompare].  The properties hold for every
      runtime that meets ECMA-262; the concrete runs fix one. *)

From Stdlib Require Import ZArith QArith Qround Lia Sorted Permutation Ascii.
From Stdlib Require OrderedTypeEx.
From stdpp Require Import base option list gmap strings sorting.

Abbreviation JsObject := (gmap string string).

(** ** JavaScript primitives used by the component *)

Module Js.

(** Truthiness of a string-or-undefined value: [undefined] and the empty
    string are falsy. *)
Definition truthy (v : option string) : bool :=
  match v with
  | Some s => negb (String.eqb s "")
  | None => false
  end.

(** [!s] on a string. *)
Definition not (s : string) : bool := String.eqb s "".

(** [a || b] where [a] is string-or-undefined and [b] a string. *)
Definition or (a : option string) (b : string) : string :=
  match a with
  | Some s => if String.eqb s "" then b else s
  | None => b
  end.

(** [a === b] on string-or-undefined values. *)
Definition strictEq (a b : option string) : bool := bool_decide (a = b).

(** String conversion inside a template literal. *)
Definition toString (v : option string) : string :=
  match v with
  | Some s => s
  | None => "undefined"
  end.

(** [Array.prototype.find]. *)
Fixpoint find {A} (p : A → bool) (l : list A) : option A :=
  match l with
  | [] => None
  | x :: l' => if p x then Some x else find p l'
  end.

(** [Array.prototype.filter(...).length]. *)
Definition countIf {A} (p : A → bool) (l : list A) : nat :=
  length (List.filter p l).

Section ArraySort.
Context {A : Type}.
(** The comparison callback; its result may be [NaN]. *)
Variable comparefn : A → A → option Z.

(** ECMA-262 SortCompare: a [NaN] result of the callback counts as +0. *)
Definition SortCompare (x y : A) : Z := default 0%Z (comparefn x y).

(** Two elements that compare equal. *)
Definition tied (x y : A) : bool := (SortCompare x y =? 0)%Z.

(** ECMA-262, 23.1.3.30: the callback is a consistent comparator for the
    values that satisfy [S].  It never yields [NaN]; comparing equal is an
    equivalence; comparing less and comparing greater are transitive. *)
Definition consistentOn (S : A → Prop) : Prop :=
  ∀ a b c, S a → S b → S c →
    is_Some (comparefn a b)
    ∧ SortCompare a a = 0%Z
    ∧ (SortCompare a b = 0 → SortCompare b a = 0)%Z
    ∧ (SortCompare a b = 0 → SortCompare b c = 0 → SortCompare a c = 0)%Z
    ∧ (SortCompare a b < 0 → SortCompare b c < 0 → SortCompare a c < 0)%Z
    ∧ (0 < SortCompare a b → 0 < SortCompare b c → 0 < SortCompare a c)%Z.

Fixpoint insert (x : A) (l : list A) : list A :=
  match l with
  | [] => [x]
  | y :: l' =>
      if decide (0 < SortCompare x y)%Z then y :: insert x l' else x :: l
  end.

(** One way to sort: a stable insertion, in which an element moves behind
    exactly the elements that the callback puts strictly before it. *)
Fixpoint insertionSort (l : list A) : list A :=
  match l with
  | [] => []
  | x :: l' => insert x (insertionSort l')
  end.
End ArraySort.

(** [Array.prototype.sort(comparefn)] of an engine, seen as a function of
    the callback and the elements of the array. *)
Definition Sort : Type := ∀ A : Type, (A → A → option Z) → list A → list A.

(** What ECMA-262, 23.1.3.30 requires of the engine.  The result always
    holds the elements of the array.  When the callback is a consistent
    comparator for them, the result is in the order of the callback and the
    sort is stable: elements that compare equal keep their order.  For any
    other callback the order is implementation-defined. *)
Record Conforming (sort : Sort) : Prop := {
  sort_permutation :
    ∀ A (comparefn : A → A → option Z) (l : list A), sort A comparefn l ≡ₚ l;
  sort_sorted :
    ∀ A (comparefn : A → A → option Z) (l : list A),
      consistentOn comparefn (.∈ l) →
      StronglySorted (λ a b, (SortCompare comparefn a b ≤ 0)%Z) (sort A comparefn l);
  sort_stable :
    ∀ A (comparefn : A → A → option Z) (l : list A) (x : A),
      consistentOn comparefn (.∈ l) → x ∈ l →
      List.filter (tied comparefn x) (sort A comparefn l)
      = List.filter (tied comparefn x) l
}.

(** An engine that sorts by stable insertion; it serves the concrete
    runs. *)
Definition insertionEngine : Sort := @insertionSort.

End Js.

(** ** Date parsing

    [new Date(s).getTime()] for the strings that [toISOString] produces,
    [YYYY-MM-DDTHH:mm:ss.sssZ]; every other string is an invalid date here.
    The collection code below is parametric in the parser, this one serves
    the concrete runs. *)

Module IsoDate.

Definition digitVal (c : ascii) : option Z :=
  let n := Z.of_N (N_of_ascii c) in
  if ((48 <=? n) && (n <=? 57))%Z then Some (n - 48)%Z else None.

Fixpoint digits (cs : list ascii) (acc : Z) : option Z :=
  match cs with
  | [] => Some acc
  | c :: cs' =>
    match digitVal c with
    | Some d => digits cs' (10 * acc + d)%Z
    | None => None
    end
  end.

(** Reads [n] decimal digits. *)
Definition field (n : nat) (cs : list ascii) : option (Z * list ascii) :=
  if decide (n ≤ length cs)
  then match digits (take n cs) 0%Z with
     | Some v => Some (v, drop n cs)
     | None => None
     end
  else None.

Definition sep (c : ascii) (cs : list ascii) : option (list ascii) :=
  match cs with
  | c' :: r => if Ascii.eqb c c' then Some r else None
  | [] => None
  end.

Definition isLeap (y : Z) : bool :=
  ((y mod 4 =? 0) && (negb (y mod 100 =? 0) || (y mod 400 =? 0)))%Z.

Definition daysInMonth (y m : Z) : Z :=
  if (m =? 2)%Z then (if isLeap y then 29 else 28)%Z
  else if ((m =? 4) || (m =? 6) || (m =? 9) || (m =? 11))%Z then 30%Z
  else 31%Z.

(** Days between 1970-01-01 and the given civil date. *)
Definition daysFromCivil (y m d : Z) : Z :=
  let y' := if (m <=? 2)%Z then (y - 1)%Z else y in
  let era := (y' / 400)%Z in
  let yoe := (y' - era * 400)%Z in
  let mp := ((m + 9) mod 12)%Z in
  let doy := ((153 * mp + 2) / 5 + d - 1)%Z in
  let doe := (yoe * 365 + yoe / 4 - yoe / 100 + doy)%Z in
  (era * 146097 + doe - 719468)%Z.

Definition parse (s : string) : option Z :=
  '(y, r) ← field 4 (String.list_ascii_of_string s);
  r ← sep "-" r;
  '(mo, r) ← field 2 r;
  r ← sep "-" r;
  '(d, r) ← field 2 r;
  r ← sep "T" r;
  '(h, r) ← field 2 r;
  r ← sep ":" r;
  '(mi, r) ← field 2 r;
  r ← sep ":" r;
  '(sec, r) ← field 2 r;
  r ← sep "." r;
  '(ms, r) ← field 3 r;
  r ← sep "Z" r;
  match r with
  | [] =>
    if ((1 <=? mo) && (mo <=? 12) && (1 <=? d) && (d <=? daysInMonth y mo)
        && (h <=? 23) && (mi <=? 59) && (sec <=? 59))%Z
    then Some ((((daysFromCivil y mo d * 24 + h) * 60 + mi) * 60 + sec) * 1000 + ms)%Z
    else None
  | _ :: _ => None
  end.

End IsoDate.

(** ** Collation

    [String.prototype.localeCompare] in the default locale compares by the
    Unicode collation algorithm.  This is the CLDR root collation, which the
    English locales use unchanged, on strings of ASCII letters, digits and
    spaces.  Strings are compared by the primary weights of their
    characters: the space before the digits, the digits before the letters,
    a letter and its capital alike, a string before its extensions.
    Strings that are alike up to case are compared by case: at the first
    difference the lower-case letter comes first.  The derived views below
    are parametric in the collation, this one serves the concrete runs. *)

Module RootCollation.

Definition isDigit (n : N) : bool := ((48 <=? n) && (n <=? 57))%N.
Definition isLower (n : N) : bool := ((97 <=? n) && (n <=? 122))%N.
Definition isUpper (n : N) : bool := ((65 <=? n) && (n <=? 90))%N.

(** The strings this collation is given for. *)
Definition covered (s : string) : bool :=
  forallb
    (λ c, let n := N_of_ascii c in (n =? 32)%N || isDigit n || isLower n || isUpper n)
    (String.list_ascii_of_string s).

(** Primary weights: 1 for the space, 2 to 11 for the digits, 12 to 37 for
    the letters.  The other code units are not covered; they share one
    weight behind the letters. *)
Definition primary (c : ascii) : ascii :=
  let n := N_of_ascii c in
  ascii_of_N
    (if (n =? 32)%N then 1
     else if isDigit n then n - 46
     else if isLower n then n - 85
     else if isUpper n then n - 53
     else 38)%N.

(** Tertiary weights: a capital letter after everything else. *)
Definition tertiary (c : ascii) : ascii :=
  if isUpper (N_of_ascii c) then "002"%char else "001"%char.

Fixpoint weights (f : ascii → ascii) (s : string) : string :=
  match s with
  | EmptyString => EmptyString
  | String c s' => String (f c) (weights f s')
  end.

(** The sort key of a string: its primary weights, the level separator,
    its tertiary weights.  Sort keys are compared unit by unit. *)
Definition sortKey (s : string) : string :=
  weights primary s +:+ String "000"%char (weights tertiary s).

Definition compare (a b : string) : Z :=
  match String.compare (sortKey a) (sortKey b) with
  | Lt => (-1)%Z
  | Eq => 0%Z
  | Gt => 1%Z
  end.

End RootCollation.

(** ** Collection synchroniser: the four snapshot callbacks *)

(** A snapshot payload: [null], or an object whose entries are listed in
    property order, the order [Object.entries] yields. *)
Definition Snapshot : Type := option (list (string * JsObject)).

(** [{ id, ...t }]: the [id] property is written first, then the own
    properties of [t] are copied over it. *)
Definition withId (id : string) (t : JsObject) : JsObject :=
  t ∪ {[ "id" := id ]}.

(** [Object.entries(data).map(([id, t]) => ({ id, ...t }))]. *)
Definition entriesToRecords (data : list (string * JsObject)) : list JsObject :=
  map (λ e, withId e.1 e.2) data.

Inductive Collection : Type := Teachers | Classes | Students | Announcements.

Definition collectionPath (c : Collection) : string :=
  match c with
  | Teachers => "teachers"
  | Classes => "classes"
  | Students => "students"
  | Announcements => "announcements"
  end.

Section Synchroniser.
(** The runtime's date parser, [NaN] being [None]. *)
Variable Date_parse : string → option Z.
(** The engine's [Array.prototype.sort]. *)
Variable Array_sort : Js.Sort.

(** [new Date(v).getTime()]; [new Date(undefined)] is an invalid date. *)
Definition getTime (v : option string) : option Z :=
  match v with
  | Some s => Date_parse s
  | None => None
  end.

Definition createdTime (a : JsObject) : option Z := getTime (a !! "createdAt").

(** [(a, b) => new Date(b.createdAt).getTime() - new Date(a.createdAt).getTime()].
    Time values are integers of magnitude at most 8.64e15, so the sign of
    the floating-point difference is the sign of the exact one. *)
Definition byCreatedAtDesc (a b : JsObject) : option Z :=
  match createdTime b, createdTime a with
  | Some tb, Some ta => Some (tb - ta)%Z
  | _, _ => None
  end.

Definition onTeachers (data : Snapshot) : list JsObject :=
  match data with
  | Some d => entriesToRecords d
  | None => []
  end.

Definition onClasses (data : Snapshot) : list JsObject :=
  match data with
  | Some d => entriesToRecords d
  | None => []
  end.

Definition onStudents (data : Snapshot) : list JsObject :=
  match data with
  | Some d => entriesToRecords d
  | None => []
  end.

Definition onAnnouncements (data : Snapshot) : list JsObject :=
  match data with
  | Some d => Array_sort _ byCreatedAtDesc (entriesToRecords d)
  | None => []
  end.

(** The value a snapshot callback hands to its state setter. *)
Definition materialize (c : Collection) (data : Snapshot) : list JsObject :=
  match c with
  | Teachers => onTeachers data
  | Classes => onClasses data
  | Students => onStudents data
  | Announcements => onAnnouncements data
  end.
End Synchroniser.


(** ** Form drafts

    The four [useState] drafts.  [toObject] is the draft seen as the object
    that a spread [{...draft}] copies. *)

Module TeacherDraft.
Record t : Type := { name : string; username : string; password : string; subject : string }.
Definition empty : t := {| name := ""; username := ""; password := ""; subject := "" |}.
Definition toObject (d : t) : JsObject :=
  <["subject" := subject d]> (<["password" := password d]>
    (<["username" := username d]> {[ "name" := name d ]})).
End TeacherDraft.

Module ClassDraft.
Record t : Type := { name : string; grade : string; teacherId : string }.
Definition empty : t := {| name := ""; grade := ""; teacherId := "" |}.
Definition toObject (d : t) : JsObject :=
  <["teacherId" := teacherId d]> (<["grade" := grade d]> {[ "name" := name d ]}).
End ClassDraft.

Module StudentDraft.
Record t : Type := { name : string; username : string; password : string; classId : string }.
Definition empty : t := {| name := ""; username := ""; password := ""; classId := "" |}.
Definition toObject (d : t) : JsObject :=
  <["classId" := classId d]> (<["password" := password d]>
    (<["username" := username d]> {[ "name" := name d ]})).
End StudentDraft.

Module AnnouncementDraft.
Record t : Type := { title : string; content : string; priority : string }.
Definition empty : t := {| title := ""; content := ""; priority := "normal" |}.
Definition toObject (d : t) : JsObject :=
  <["priority" := priority d]> (<["content" := content d]> {[ "title" := title d ]}).
End AnnouncementDraft.

(** ** Timetable values *)

Record Slot : Type := { subject : string; time : string }.

(** [Record<string, { subject; time }[]>], keyed by day. *)
Abbreviation Timetable := (gmap string (list Slot)).

(** ** Component state: the [useState] cells *)

Record State : Type := {
  teachers : list JsObject;
  classes : list JsObject;
  students : list JsObject;
  announcements : list JsObject;
  showModal : option string;
  searchTerm : string;
  newTeacher : TeacherDraft.t;
  newClass : ClassDraft.t;
  newStudent : StudentDraft.t;
  newAnnouncement : AnnouncementDraft.t;
  selectedTimetableClass : string;
  timetableData : Timetable
}.

Definition initialState : State := {|
  teachers := []; classes := []; students := []; announcements := [];
  showModal := None; searchTerm := "";
  newTeacher := TeacherDraft.empty; newClass := ClassDraft.empty;
  newStudent := StudentDraft.empty; newAnnouncement := AnnouncementDraft.empty;
  selectedTimetableClass := ""; timetableData := ∅
|}.

Definition setTeachers (v : list JsObject) (s : State) : State :=
  {| teachers := v; classes := classes s; students := students s;
     announcements := announcements s; showModal := showModal s;
     searchTerm := searchTerm s; newTeacher := newTeacher s; newClass := newClass s;
     newStudent := newStudent s; newAnnouncement := newAnnouncement s;
     selectedTimetableClass := selectedTimetableClass s;
     timetableData := timetableData s |}.

Definition setClasses (v : list JsObject) (s : State) : State :=
  {| teachers := teachers s; classes := v; students := students s;
     announcements := announcements s; showModal := showModal s;
     searchTerm := searchTerm s; newTeacher := newTeacher s; newClass := newClass s;
     newStudent := newStudent s; newAnnouncement := newAnnouncement s;
     selectedTimetableClass := selectedTimetableClass s;
     timetableData := timetableData s |}.

Definition setStudents (v : list JsObject) (s : State) : State :=
  {| teachers := teachers s; classes := classes s; students := v;
     announcements := announcements s; showModal := showModal s;
     searchTerm := searchTerm s; newTeacher := newTeacher s; newClass := newClass s;
     newStudent := newStudent s; newAnnouncement := newAnnouncement s;
     selectedTimetableClass := selectedTimetableClass s;
     timetableData := timetableData s |}.

Definition setAnnouncements (v : list JsObject) (s : State) : State :=
  {| teachers := teachers s; classes := classes s; students := students s;
     announcements := v; showModal := showModal s;
     searchTerm := searchTerm s; newTeacher := newTeacher s; newClass := newClass s;
     newStudent := newStudent s; newAnnouncement := newAnnouncement s;
     selectedTimetableClass := selectedTimetableClass s;
     timetableData := timetableData s |}.

Definition setShowModal (v : option string) (s : State) : State :=
  {| teachers := teachers s; classes := classes s; students := students s;
     announcements := announcements s; showModal := v;
     searchTerm := searchTerm s; newTeacher := newTeacher s; newClass := newClass s;
     newStudent := newStudent s; newAnnouncement := newAnnouncement s;
     selectedTimetableClass := selectedTimetableClass s;
     timetableData := timetableData s |}.

Definition setSearchTerm (v : string) (s : State) : State :=
  {| teachers := teachers s; classes := classes s; students := students s;
     announcements := announcements s; showModal := showModal s;
     searchTerm := v; newTeacher := newTeacher s; newClass := newClass s;
     newStudent := newStudent s; newAnnouncement := newAnnouncement s;
     selectedTimetableClass := selectedTimetableClass s;
     timetableData := timetableData s |}.

Definition setNewTeacher (v : TeacherDraft.t) (s : State) : State :=
  {| teachers := teachers s; classes := classes s; students := students s;
     announcements := announcements s; showModal := showModal s;
     searchTerm := searchTerm s; newTeacher := v; newClass := newClass s;
     newStudent := newStudent s; newAnnouncement := newAnnouncement s;
     selectedTimetableClass := selectedTimetableClass s;
     timetableData := timetableData s |}.

Definition setNewClass (v : ClassDraft.t) (s : State) : State :=
  {| teachers := teachers s; classes := classes s; students := students s;
     announcements := announcements s; showModal := showModal s;
     searchTerm := searchTerm s; newTeacher := newTeacher s; newClass := v;
     newStudent := newStudent s; newAnnouncement := newAnnouncement s;
     selectedTimetableClass := selectedTimetableClass s;
     timetableData := timetableData s |}.

Definition setNewStudent (v : StudentDraft.t) (s : State) : State :=
  {| teachers := teachers s; classes := classes s; students := students s;
     announcements := announcements s; showModal := showModal s;
     searchTerm := searchTerm s; newTeacher := newTeacher s; newClass := newClass s;
     newStudent := v; newAnnouncement := newAnnouncement s;
     selectedTimetableClass := selectedTimetableClass s;
     timetableData := timetableData s |}.

Definition setNewAnnouncement (v : AnnouncementDraft.t) (s : State) : State :=
  {| teachers := teachers s; classes := classes s; students := students s;
     announcements := announcements s; showModal := showModal s;
     searchTerm := searchTerm s; newTeacher := newTeacher s; newClass := newClass s;
     newStudent := newStudent s; newAnnouncement := v;
     selectedTimetableClass := selectedTimetableClass s;
     timetableData := timetableData s |}.

Definition setSelectedTimetableClass (v : string) (s : State) : State :=
  {| teachers := teachers s; classes := classes s; students := students s;
     announcements := announcements s; showModal := showModal s;
     searchTerm := searchTerm s; newTeacher := newTeacher s; newClass := newClass s;
     newStudent := newStudent s; newAnnouncement := newAnnouncement s;
     selectedTimetableClass := v;
     timetableData := timetableData s |}.

Definition setTimetableData (v : Timetable) (s : State) : State :=
  {| teachers := teachers s; classes := classes s; students := students s;
     announcements := announcements s; showModal := showModal s;
     searchTerm := searchTerm s; newTeacher := newTeacher s; newClass := newClass s;
     newStudent := newStudent s; newAnnouncement := newAnnouncement s;
     selectedTimetableClass := selectedTimetableClass s;
     timetableData := v |}.

(** The state cell that mirrors a collection. *)
Definition collectionOf (c : Collection) (s : State) : list JsObject :=
  match c with
  | Teachers => teachers s
  | Classes => classes s
  | Students => students s
  | Announcements => announcements s
  end.

(** ** Calls that leave the component *)

Inductive Call : Type :=
  | Listen (id : nat) (path : string)
  | Unsubscribe (id : nat)
  | Push (path : string) (record : JsObject)
  | Remove (path : string)
  | Toast (title description : string) (destructive : bool).

(** ** Submit handlers

    [now] is the value of [new Date().toISOString()] at the call, [resolved]
    tells whether the awaited [dbPush] promise resolves; when it rejects the
    handler stops at the [await]. *)

Definition handleAddTeacher (now : string) (resolved : bool) (s : State)
  : State * list Call :=
  let d := newTeacher s in
  if Js.not (TeacherDraft.name d) || Js.not (TeacherDraft.username d)
     || Js.not (TeacherDraft.password d) || Js.not (TeacherDraft.subject d)
  then (s, [Toast "Error" "Please fill all fields" true])
  else
    let push := Push "teachers" (<["createdAt" := now]> (TeacherDraft.toObject d)) in
    if resolved
    then (setShowModal None (setNewTeacher TeacherDraft.empty s),
          [push; Toast "Success" "Teacher added successfully" false])
    else (s, [push]).

Definition handleAddClass (now : string) (resolved : bool) (s : State)
  : State * list Call :=
  let d := newClass s in
  if Js.not (ClassDraft.name d) || Js.not (ClassDraft.grade d)
     || Js.not (ClassDraft.teacherId d)
  then (s, [Toast "Error" "Please fill all fields" true])
  else
    let teacher :=
      Js.find (λ t, Js.strictEq (t !! "id") (Some (ClassDraft.teacherId d))) (teachers s) in
    let teacherName := Js.or (teacher ≫= (λ t, t !! "name")) "Unassigned" in
    let push :=
      Push "classes"
        (<["createdAt" := now]> (<["teacherName" := teacherName]> (ClassDraft.toObject d))) in
    if resolved
    then (setShowModal None (setNewClass ClassDraft.empty s),
          [push; Toast "Success" "Class created successfully" false])
    else (s, [push]).

Definition handleAddStudent (now : string) (resolved : bool) (s : State)
  : State * list Call :=
  let d := newStudent s in
  if Js.not (StudentDraft.name d) || Js.not (StudentDraft.username d)
     || Js.not (StudentDraft.password d) || Js.not (StudentDraft.classId d)
  then (s, [Toast "Error" "Please fill all fields" true])
  else
    let cls :=
      Js.find (λ c, Js.strictEq (c !! "id") (Some (StudentDraft.classId d))) (classes s) in
    let className := Js.or (cls ≫= (λ c, c !! "name")) "Unassigned" in
    let push :=
      Push "students"
        (<["createdAt" := now]> (<["className" := className]> (StudentDraft.toObject d))) in
    if resolved
    then (setShowModal None (setNewStudent StudentDraft.empty s),
          [push; Toast "Success" "Student enrolled successfully" false])
    else (s, [push]).

Definition handleAddAnnouncement (now : string) (resolved : bool) (s : State)
  : State * list Call :=
  let d := newAnnouncement s in
  if Js.not (AnnouncementDraft.title d) || Js.not (AnnouncementDraft.content d)
  then (s, [Toast "Error" "Please fill all fields" true])
  else
    let push :=
      Push "announcements"
        (<["createdAt" := now]> (<["author" := "Principal"]> (AnnouncementDraft.toObject d))) in
    if resolved
    then (setShowModal None (setNewAnnouncement AnnouncementDraft.empty s),
          [push; Toast "Success" "Announcement posted" false])
    else (s, [push]).

(** The submit handler of each entity's form. *)
Definition submit (e : Collection) : string → bool → State → State * list Call :=
  match e with
  | Teachers => handleAddTeacher
  | Classes => handleAddClass
  | Students => handleAddStudent
  | Announcements => handleAddAnnouncement
  end.

(** ** Remote store adapter *)

(** Which callback a listener was registered with. *)
Inductive Callback : Type := OnCollection (c : Collection) | OnTimetable.

Record Listener : Type := {
  listenerId : nat;
  listenerPath : string;
  listenerCallback : Callback
}.

(** Modelled from the spec: the adapter module [@/lib/firebase] is not among
    the sources.  Following sections 2, 5 and 6 of the specification,
    [dbListen path callback] registers one listener on [path] and returns
    its unsubscribe function, and unsubscribing stops every later delivery to
    that listener; calling the function again changes nothing. *)
Record Adapter : Type := { listeners : list Listener; nextId : nat }.

Definition dbListen (path : string) (cb : Callback) (a : Adapter) : nat * Adapter :=
  (nextId a,
   {| listeners := listeners a ++
        [{| listenerId := nextId a; listenerPath := path; listenerCallback := cb |}];
      nextId := S (nextId a) |}).

Definition unsubscribe (id : nat) (a : Adapter) : Adapter :=
  {| listeners := List.filter (λ l, negb (Nat.eqb (listenerId l) id)) (listeners a);
     nextId := nextId a |}.

(** ** The mounted component *)

(** The component instance: its state cells, the cleanup functions React
    keeps for its two effects, and the adapter it talks to. *)
Record World : Type := {
  ui : State;
  mounted : bool;
  collectionUnsubs : list nat;
  timetableUnsub : option nat;
  store : Adapter
}.

Definition setUi (s : State) (w : World) : World :=
  {| ui := s; mounted := mounted w; collectionUnsubs := collectionUnsubs w;
     timetableUnsub := timetableUnsub w; store := store w |}.

Definition setStore (a : Adapter) (w : World) : World :=
  {| ui := ui w; mounted := mounted w; collectionUnsubs := collectionUnsubs w;
     timetableUnsub := timetableUnsub w; store := a |}.

Definition setTimetableUnsub (u : option nat) (w : World) : World :=
  {| ui := ui w; mounted := mounted w; collectionUnsubs := collectionUnsubs w;
     timetableUnsub := u; store := store w |}.

Definition initialWorld : World :=
  {| ui := initialState; mounted := false; collectionUnsubs := [];
     timetableUnsub := None; store := {| listeners := []; nextId := 0 |} |}.

Definition listen (path : string) (cb : Callback) (w : World) : nat * World * list Call :=
  let '(id, a) := dbListen path cb (store w) in
  (id, setStore a w, [Listen id path]).

(** The body of the first effect (dependencies [[]]). *)
Definition collectionsEffect (w : World) : World * list Call :=
  let '(i1, w1, c1) := listen "teachers" (OnCollection Teachers) w in
  let '(i2, w2, c2) := listen "classes" (OnCollection Classes) w1 in
  let '(i3, w3, c3) := listen "students" (OnCollection Students) w2 in
  let '(i4, w4, c4) := listen "announcements" (OnCollection Announcements) w3 in
  ({| ui := ui w4; mounted := mounted w4; collectionUnsubs := [i1; i2; i3; i4];
      timetableUnsub := timetableUnsub w4; store := store w4 |},
   c1 ++ c2 ++ c3 ++ c4).

(** [unsubs.forEach(u => u())]. *)
Definition collectionsCleanup (w : World) : World * list Call :=
  ({| ui := ui w; mounted := mounted w; collectionUnsubs := [];
      timetableUnsub := timetableUnsub w;
      store := foldl (λ a id, unsubscribe id a) (store w) (collectionUnsubs w) |},
   map Unsubscribe (collectionUnsubs w)).

(** The body of the second effect (dependencies [[selectedTimetableClass]]). *)
Definition timetableEffect (w : World) : World * list Call :=
  if Js.not (selectedTimetableClass (ui w))
  then (setTimetableUnsub None (setUi (setTimetableData ∅ (ui w)) w), [])
  else
    let '(id, w', c) :=
      listen ("schedules/" +:+ selectedTimetableClass (ui w)) OnTimetable w in
    (setTimetableUnsub (Some id) w', c).

(** The cleanup the second effect returned, if it returned one. *)
Definition timetableCleanup (w : World) : World * list Call :=
  match timetableUnsub w with
  | Some id => (setTimetableUnsub None (setStore (unsubscribe id (store w)) w),
                [Unsubscribe id])
  | None => (w, [])
  end.

(** The fields of the forms. *)
Inductive Input : Type :=
  | TeacherName | TeacherSubject | TeacherUsername | TeacherPassword
  | ClassName | ClassGrade | ClassTeacher
  | StudentName | StudentUsername | StudentPassword | StudentClass
  | AnnouncementTitle | AnnouncementContent | AnnouncementPriority
  | Search.

(** The [onChange] handlers: [setNewTeacher({...newTeacher, name: value})]
    and the like. *)
Definition onChange (i : Input) (v : string) (s : State) : State :=
  let t := newTeacher s in
  let c := newClass s in
  let u := newStudent s in
  let a := newAnnouncement s in
  match i with
  | TeacherName => setNewTeacher
      {| TeacherDraft.name := v; TeacherDraft.username := TeacherDraft.username t;
         TeacherDraft.password := TeacherDraft.password t;
         TeacherDraft.subject := TeacherDraft.subject t |} s
  | TeacherSubject => setNewTeacher
      {| TeacherDraft.name := TeacherDraft.name t;
         TeacherDraft.username := TeacherDraft.username t;
         TeacherDraft.password := TeacherDraft.password t;
         TeacherDraft.subject := v |} s
  | TeacherUsername => setNewTeacher
      {| TeacherDraft.name := TeacherDraft.name t; TeacherDraft.username := v;
         TeacherDraft.password := TeacherDraft.password t;
         TeacherDraft.subject := TeacherDraft.subject t |} s
  | TeacherPassword => setNewTeacher
      {| TeacherDraft.name := TeacherDraft.name t;
         TeacherDraft.username := TeacherDraft.username t;
         TeacherDraft.password := v;
         TeacherDraft.subject := TeacherDraft.subject t |} s
  | ClassName => setNewClass
      {| ClassDraft.name := v; ClassDraft.grade := ClassDraft.grade c;
         ClassDraft.teacherId := ClassDraft.teacherId c |} s
  | ClassGrade => setNewClass
      {| ClassDraft.name := ClassDraft.name c; ClassDraft.grade := v;
         ClassDraft.teacherId := ClassDraft.teacherId c |} s
  | ClassTeacher => setNewClass
      {| ClassDraft.name := ClassDraft.name c; ClassDraft.grade := ClassDraft.grade c;
         ClassDraft.teacherId := v |} s
  | StudentName => setNewStudent
      {| StudentDraft.name := v; StudentDraft.username := StudentDraft.username u;
         StudentDraft.password := StudentDraft.password u;
         StudentDraft.classId := StudentDraft.classId u |} s
  | StudentUsername => setNewStudent
      {| StudentDraft.name := StudentDraft.name u; StudentDraft.username := v;
         StudentDraft.password := StudentDraft.password u;
         StudentDraft.classId := StudentDraft.classId u |} s
  | StudentPassword => setNewStudent
      {| StudentDraft.name := StudentDraft.name u;
         StudentDraft.username := StudentDraft.username u;
         StudentDraft.password := v;
         StudentDraft.classId := StudentDraft.classId u |} s
  | StudentClass => setNewStudent
      {| StudentDraft.name := StudentDraft.name u;
         StudentDraft.username := StudentDraft.username u;
         StudentDraft.password := StudentDraft.password u;
         StudentDraft.classId := v |} s
  | AnnouncementTitle => setNewAnnouncement
      {| AnnouncementDraft.title := v;
         AnnouncementDraft.content := AnnouncementDraft.content a;
         AnnouncementDraft.priority := AnnouncementDraft.priority a |} s
  | AnnouncementContent => setNewAnnouncement
      {| AnnouncementDraft.title := AnnouncementDraft.title a;
         AnnouncementDraft.content := v;
         AnnouncementDraft.priority := AnnouncementDraft.priority a |} s
  | AnnouncementPriority => setNewAnnouncement
      {| AnnouncementDraft.title := AnnouncementDraft.title a;
         AnnouncementDraft.content := AnnouncementDraft.content a;
         AnnouncementDraft.priority := v |} s
  | Search => setSearchTerm v s
  end.

(** What can happen to the component. *)
Inductive Event : Type :=
  | Mount
  | Unmount
  | Change (i : Input) (value : string)
  | ShowModal (m : option string)
  | SelectTimetableClass (c : string)
  | Submit (e : Collection) (now : string) (resolved : bool)
  | ClickRemove (c : Collection) (i : nat)
  | CollectionSnapshot (path : string) (data : Snapshot)
  | TimetableSnapshot (path : string) (data : option Timetable).

Section Component.
Variable Date_parse : string → option Z.
Variable Array_sort : Js.Sort.

(** The callbacks handed to [dbListen]. *)
Definition collectionCallback (c : Collection) (data : Snapshot) (s : State) : State :=
  match c with
  | Teachers => setTeachers (onTeachers data) s
  | Classes => setClasses (onClasses data) s
  | Students => setStudents (onStudents data) s
  | Announcements => setAnnouncements (onAnnouncements Date_parse Array_sort data) s
  end.

(** [(data) => setTimetableData(data || {})]. *)
Definition timetableCallback (data : option Timetable) (s : State) : State :=
  setTimetableData (default ∅ data) s.

(** The adapter hands a snapshot of [path] to the listeners that are
    registered on [path] at that moment, in registration order. *)
Definition deliverCollection (path : string) (data : Snapshot) (w : World) : World :=
  setUi
    (foldl
       (λ s l,
          if String.eqb (listenerPath l) path
          then match listenerCallback l with
               | OnCollection c => collectionCallback c data s
               | OnTimetable => s
               end
          else s)
       (ui w) (listeners (store w)))
    w.

Definition deliverTimetable (path : string) (data : option Timetable) (w : World) : World :=
  setUi
    (foldl
       (λ s l,
          if String.eqb (listenerPath l) path
          then match listenerCallback l with
               | OnCollection _ => s
               | OnTimetable => timetableCallback data s
               end
          else s)
       (ui w) (listeners (store w)))
    w.

(** The delete buttons: [dbRemove(`teachers/${t.id}`)] and the like, for the
    record shown at position [i] of the collection. *)
Definition clickRemove (c : Collection) (i : nat) (w : World) : list Call :=
  match collectionOf c (ui w) !! i with
  | Some r => [Remove (collectionPath c +:+ "/" +:+ Js.toString (r !! "id"))]
  | None => []
  end.

(** Selecting a class: the state cell changes, React runs the cleanup of the
    second effect and then its body again, all before the next event is
    handled (the effects of a discrete input event are flushed with it).
    Setting the value the cell already holds re-runs nothing. *)
Definition selectTimetableClass (c : string) (w : World) : World * list Call :=
  if String.eqb c (selectedTimetableClass (ui w))
  then (w, [])
  else
    let w0 := setUi (setSelectedTimetableClass c (ui w)) w in
    let '(w1, c1) := timetableCleanup w0 in
    let '(w2, c2) := timetableEffect w1 in
    (w2, c1 ++ c2).

Definition mount (w : World) : World * list Call :=
  let w0 := {| ui := initialState; mounted := true; collectionUnsubs := [];
               timetableUnsub := None; store := store w |} in
  let '(w1, c1) := collectionsEffect w0 in
  let '(w2, c2) := timetableEffect w1 in
  (w2, c1 ++ c2).

Definition unmount (w : World) : World * list Call :=
  let '(w1, c1) := collectionsCleanup w in
  let '(w2, c2) := timetableCleanup w1 in
  ({| ui := ui w2; mounted := false; collectionUnsubs := collectionUnsubs w2;
      timetableUnsub := timetableUnsub w2; store := store w2 |},
   c1 ++ c2).

Definition step (ev : Event) (w : World) : World * list Call :=
  match ev with
  | Mount => if mounted w then (w, []) else mount w
  | CollectionSnapshot path data => (deliverCollection path data w, [])
  | TimetableSnapshot path data => (deliverTimetable path data w, [])
  | _ =>
      if negb (mounted w) then (w, [])
      else
        match ev with
        | Unmount => unmount w
        | Change i v => (setUi (onChange i v (ui w)) w, [])
        | ShowModal m => (setUi (setShowModal m (ui w)) w, [])
        | SelectTimetableClass c => selectTimetableClass c w
        | Submit e now resolved =>
            let '(s, calls) := submit e now resolved (ui w) in (setUi s w, calls)
        | ClickRemove c i => (w, clickRemove c i w)
        | _ => (w, [])
        end
  end.

Fixpoint run (evs : list Event) (w : World) : World * list Call :=
  match evs with
  | [] => (w, [])
  | ev :: evs' =>
      let '(w1, c1) := step ev w in
      let '(w2, c2) := run evs' w1 in
      (w2, c1 ++ c2)
  end.

(** The worlds the component can be in. *)
Definition reachable (w : World) : Prop := ∃ evs, (run evs initialWorld).1 = w.

End Component.

(** ** Derived views of the reports page *)

Record GradeEntry : Type := { name : string; count : nat }.

Section Reports.
(** The engine's [Array.prototype.sort]. *)
Variable Array_sort : Js.Sort.
(** [String.prototype.localeCompare] of the runtime, in its default
    locale. *)
Variable localeCompare : string → string → Z.

Definition gradeEntry (students : list JsObject) (cls : JsObject) : GradeEntry :=
  {| name := "Grade " +:+ Js.toString (cls !! "grade");
     count := Js.countIf (λ s, Js.strictEq (s !! "classId") (cls !! "id")) students |}.

Definition studentsByGrade (classes students : list JsObject) : list GradeEntry :=
  Array_sort _ (λ a b, Some (localeCompare (name a) (name b)))
    (map (gradeEntry students) classes).
End Reports.

(** [Math.round]: the nearest integer, a tie going up. *)
Definition Math_round (q : Q) : Z := Qfloor (q + (1 # 2)).

(** [classes.length > 0 ? Math.round(students.length / classes.length) : 0].
    Array lengths are below 2^32, so the double quotient lies on the same
    side of every half-integer as the exact quotient and rounds as it does. *)
Definition avgClassSize (students classes : list JsObject) : Z :=
  if (0 <? length classes)%nat
  then Math_round (inject_Z (Z.of_nat (length students)) / inject_Z (Z.of_nat (length classes)))
  else 0%Z.

(** [teachers.length > 0 ? Math.round(students.length / teachers.length) : 0]. *)
Definition studentTeacherRatio (students teachers : list JsObject) : Z :=
  if (0 <? length teachers)%nat
  then Math_round (inject_Z (Z.of_nat (length students)) / inject_Z (Z.of_nat (length teachers)))
  else 0%Z.

(** ** Vocabulary of the properties *)

(** The entries a payload holds; [null] holds none. *)
Definition snapshotEntries (data : Snapshot) : list (string * JsObject) :=
  default [] data.

(** The record of a snapshot entry: the body of the entry with an [id]
    field, which is the body's own [id] if it has one and the key of the
    entry otherwise. *)
Definition recordOf (e : string * JsObject) : JsObject :=
  <["id" := default e.1 (e.2 !! "id")]> e.2.

(** The records of a payload, in the order of its entries. *)
Definition payloadRecords (data : Snapshot) : list JsObject :=
  map recordOf (snapshotEntries data).

(** The creation time of a record: its [createdAt], read as a date. *)
Definition creationTime (Date_parse : string → option Z) (r : JsObject) : option Z :=
  r !! "createdAt" ≫= Date_parse.

(** A list of records is in descending order of creation time: of two
    records with a valid time, the later one in the list is not the newer. *)
Definition descendingByCreatedAt (Date_parse : string → option Z)
  (l : list JsObject) : Prop :=
  ∀ i j a b ta tb,
    i < j → l !! i = Some a → l !! j = Some b →
    creationTime Date_parse a = Some ta → creationTime Date_parse b = Some tb →
    (tb ≤ ta)%Z.

(** The records of [l] whose [createdAt] reads [v], in the order of [l]. *)
Definition withCreatedAt (v : option string) (l : list JsObject) : list JsObject :=
  List.filter (λ a, bool_decide (a !! "createdAt" = v)) l.

(** The records of [l] created at time [t], in the order of [l]. *)
Definition createdAtTime (Date_parse : string → option Z) (t : Z)
  (l : list JsObject) : list JsObject :=
  List.filter (λ a, bool_decide (creationTime Date_parse a = Some t)) l.

(** Every entry of the payload carries a [createdAt] that parses to a valid
    time. *)
Definition datesValid (Date_parse : string → option Z) (data : Snapshot) : bool :=
  forallb
    (λ e : string * JsObject, bool_decide (is_Some (creationTime Date_parse e.2)))
    (snapshotEntries data).

(** The fields each form checks before it writes. *)
Definition requiredFields (e : Collection) : list string :=
  match e with
  | Teachers => ["name"; "username"; "password"; "subject"]
  | Classes => ["name"; "grade"; "teacherId"]
  | Students => ["name"; "username"; "password"; "classId"]
  | Announcements => ["title"; "content"]
  end.

(** The draft of an entity, as an object. *)
Definition draftObject (e : Collection) (s : State) : JsObject :=
  match e with
  | Teachers => TeacherDraft.toObject (newTeacher s)
  | Classes => ClassDraft.toObject (newClass s)
  | Students => StudentDraft.toObject (newStudent s)
  | Announcements => AnnouncementDraft.toObject (newAnnouncement s)
  end.

(** The message each form shows once its write has gone through. *)
Definition successMessage (e : Collection) : string :=
  match e with
  | Teachers => "Teacher added successfully"
  | Classes => "Class created successfully"
  | Students => "Student enrolled successfully"
  | Announcements => "Announcement posted"
  end.

(** Every required field of the draft is present and not empty. *)
Definition draftComplete (e : Collection) (s : State) : bool :=
  forallb (λ f, Js.truthy (draftObject e s !! f)) (requiredFields e).

(** The [dbPush] calls among the calls of a handler. *)
Definition pushes (calls : list Call) : list (string * JsObject) :=
  omap (λ c, match c with Push p r => Some (p, r) | _ => None end) calls.

(** The listeners registered with the timetable callback. *)
Definition timetableListeners (w : World) : list Listener :=
  List.filter
    (λ l, match listenerCallback l with OnTimetable => true | OnCollection _ => false end)
    (listeners (store w)).

(** The path of the schedule of a class. *)
Definition schedulePath (classId : string) : string := "schedules/" +:+ classId.

(** The four collection paths. *)
Definition collectionPaths : list string :=
  ["teachers"; "classes"; "students"; "announcements"].

(** The path of the record [id] of a collection. *)
Definition recordPath (c : Collection) (id : string) : string :=
  match c with
  | Teachers => "teachers/" +:+ id
  | Classes => "classes/" +:+ id
  | Students => "students/" +:+ id
  | Announcements => "announcements/" +:+ id
  end.

(** The paths a step may hand to the adapter: a listener is registered on a
    collection path or on the schedule of the class that is selected after
    the step; a push goes to a collection path; a removal addresses a record
    of a collection by its [id] (by "undefined" if it had none). *)
Definition callAllowed (before after : World) (call : Call) : Prop :=
  match call with
  | Listen _ p =>
      p ∈ collectionPaths
      ∨ (selectedTimetableClass (ui after) ≠ ""
         ∧ p = schedulePath (selectedTimetableClass (ui after)))
  | Push p _ => p ∈ collectionPaths
  | Remove p =>
      ∃ c r, r ∈ collectionOf c (ui before)
             ∧ p = recordPath c (default "undefined" (r !! "id"))
  | Unsubscribe _ => True
  | Toast _ _ _ => True
  end.

(** Every record of the four collections has an [id]. *)
Definition recordsHaveId (s : State) : Prop :=
  ∀ c r, r ∈ collectionOf c s → is_Some (r !! "id").

(** The timetable listener that belongs to the current selection. *)
Definition selectedListener (id : nat) (w : World) : Listener :=
  {| listenerId := id;
     listenerPath := schedulePath (selectedTimetableClass (ui w));
     listenerCallback := OnTimetable |}.

(** What holds of the timetable subscription between two events. *)
Definition timetableInv (w : World) : Prop :=
  match timetableUnsub w with
  | Some id =>
      mounted w = true ∧ selectedTimetableClass (ui w) ≠ ""
      ∧ timetableListeners w = [selectedListener id w]
  | None =>
      timetableListeners w = []
      ∧ (mounted w = true →
         selectedTimetableClass (ui w) = "" ∧ timetableData (ui w) = ∅)
  end.

(** ECMA-262 on [localeCompare]: whatever the locale, it is a consistent
    comparator on the set of all strings. *)
Definition Collation (localeCompare : string → string → Z) : Prop :=
  Js.consistentOn (λ a b, Some (localeCompare a b)) (λ _, True).

(** Two labels that the collation does not tell apart. *)
Definition sameRank (localeCompare : string → string → Z) (label : string)
  (e : GradeEntry) : bool :=
  (localeCompare label (name e) =? 0)%Z.

(** Lexicographic order of strings by code unit. *)
Definition lexicographic (l : list string) : Prop :=
  StronglySorted (λ a b, String.compare a b ≠ Gt) l.

(** ** Sample data for the concrete runs *)

Module Sample.

Definition announcement (title createdAt : string) : JsObject :=
  <["createdAt" := createdAt]> {[ "title" := title ]}.

(** Three dated announcements; the first and the third were created at the
    same time. *)
Definition datedPayload : Snapshot :=
  Some [("a1", announcement "Welcome" "2024-01-01T08:00:00.000Z");
        ("a2", announcement "Exams" "2024-03-01T12:30:15.250Z");
        ("a3", announcement "Holiday" "2024-01-01T08:00:00.000Z")].

(** The second record has no [createdAt]. *)
Definition undatedPayload : Snapshot :=
  Some [("a1", announcement "Welcome" "2024-01-01T08:00:00.000Z");
        ("a2", {[ "title" := "Undated" ]});
        ("a3", announcement "Exams" "2024-03-01T12:30:15.250Z")].

(** Two teachers; the body of the first holds an [id] of its own, which is
    the key of the second. *)
Definition shadowedPayload : Snapshot :=
  Some [("k1", <["id" := "k2"]> {[ "name" := "Ada" ]});
        ("k2", {[ "name" := "Grace" ]})].

Definition now : string := "2024-09-01T07:00:00.000Z".

Definition teacher (id name : string) : JsObject :=
  <["name" := name]> {[ "id" := id ]}.

(** Three teachers; the second has an empty name. *)
Definition teachers : list JsObject :=
  [teacher "t1" "Ada"; teacher "t2" ""; teacher "t3" "Grace"].

Definition class (id name grade teacherId : string) : JsObject :=
  <["teacherId" := teacherId]> (<["grade" := grade]> (<["name" := name]> {[ "id" := id ]})).

(** Two classes of two distinct teachers; the second has an empty name. *)
Definition classes : list JsObject :=
  [class "c1" "6A" "6" "t1"; class "c2" "" "10" "t3"].

(** Two classes whose grades are letters, a capital one and a small one. *)
Definition letterClasses : list JsObject :=
  [class "c3" "Beginners" "B" "t1"; class "c4" "Advanced" "a" "t3"].

Definition student (id classId : string) : JsObject :=
  <["classId" := classId]> {[ "id" := id ]}.

(** Ten students, six in the first class and four in the second. *)
Definition students : list JsObject :=
  [student "s1" "c1"; student "s2" "c2"; student "s3" "c1"; student "s4" "c1";
   student "s5" "c2"; student "s6" "c1"; student "s7" "c2"; student "s8" "c1";
   student "s9" "c1"; student "s10" "c2"].

Definition school : State :=
  setStudents students (setClasses classes (setTeachers teachers initialState)).

Definition teacherDraft (subject : string) : TeacherDraft.t :=
  {| TeacherDraft.name := "Alan"; TeacherDraft.username := "alan";
     TeacherDraft.password := "enigma"; TeacherDraft.subject := subject |}.

Definition classDraft (teacherId : string) : ClassDraft.t :=
  {| ClassDraft.name := "7B"; ClassDraft.grade := "7"; ClassDraft.teacherId := teacherId |}.

Definition studentDraft (classId : string) : StudentDraft.t :=
  {| StudentDraft.name := "Lin"; StudentDraft.username := "lin";
     StudentDraft.password := "pw"; StudentDraft.classId := classId |}.

Definition announcementDraft (priority : string) : AnnouncementDraft.t :=
  {| AnnouncementDraft.title := "Fair"; AnnouncementDraft.content := "On Friday";
     AnnouncementDraft.priority := priority |}.

(** The component after mounting and selecting class [c1]. *)
Definition viewingC1 : World :=
  (run IsoDate.parse Js.insertionEngine [Mount; SelectTimetableClass "c1"] initialWorld).1.

(** The component after mounting and receiving the teachers of
    [shadowedPayload]. *)
Definition shadowed : World :=
  (run IsoDate.parse Js.insertionEngine
     [Mount; CollectionSnapshot "teachers" shadowedPayload] initialWorld).1.

End Sample.

(** ** Proof automation *)

(** Splits on whether the strings tested by a validation are empty. *)
Ltac split_empty :=
  repeat match goal with
    | |- context [String.eqb ?x ""] => destruct (String.eqb x "") eqn:?
    end.

(** What is left of a validation that passed. *)
Ltac passed Hv :=
  repeat (apply orb_false_elim in Hv as [Hv ?]).

(** Membership in a list that is written out. *)
Ltac in_written := apply list_elem_of_In; cbn [In]; repeat first [left; reflexivity | right].
Ltac from_written H :=
  apply list_elem_of_In in H; cbn [In app] in H;
  repeat match type of H with
    | _ ∨ _ => destruct H as [H|H]
    | False => destruct H
    end; try discriminate H.

(** * Properties *)

(** ** Facts about [Array.prototype.sort] *)

Section SortFacts.
Context {A : Type}.
Variable comparefn : A → A → option Z.

(** What a consistent comparator says about the order of its arguments. *)
Lemma consistentOn_antisym (S : A → Prop) (a b : A) :
  Js.consistentOn comparefn S → S a → S b →
  (0 < Js.SortCompare comparefn a b)%Z → (Js.SortCompare comparefn b a < 0)%Z.
Proof.
  intros Hc Ha Hb Hab.
  destruct (Hc a b a Ha Hb Ha) as (_ & Haa & _ & _ & _ & Hgt).
  destruct (Hc b a b Hb Ha Hb) as (_ & _ & Hsym & _ & _ & _).
  lia.
Qed.

Lemma consistentOn_antisym_lt (S : A → Prop) (a b : A) :
  Js.consistentOn comparefn S → S a → S b →
  (Js.SortCompare comparefn a b < 0)%Z → (0 < Js.SortCompare comparefn b a)%Z.
Proof.
  intros Hc Ha Hb Hab.
  destruct (Hc a b a Ha Hb Ha) as (_ & Haa & _ & _ & Hlt & _).
  destruct (Hc b a b Hb Ha Hb) as (_ & _ & Hsym & _ & _ & _).
  lia.
Qed.

Lemma consistentOn_le_trans (S : A → Prop) (a b c : A) :
  Js.consistentOn comparefn S → S a → S b → S c →
  (Js.SortCompare comparefn a b ≤ 0)%Z → (Js.SortCompare comparefn b c ≤ 0)%Z →
  (Js.SortCompare comparefn a c ≤ 0)%Z.
Proof.
  intros Hc Ha Hb Hcc Hab Hbc.
  destruct (decide (0 < Js.SortCompare comparefn a c)%Z) as [Hac|]; [|lia].
  pose proof (consistentOn_antisym S a c Hc Ha Hcc Hac) as Hca.
  destruct (Hc a b c Ha Hb Hcc) as (_ & _ & Hsym1 & Heq & Hlt1 & _).
  destruct (Hc c a b Hcc Ha Hb) as (_ & _ & _ & _ & Hlt2 & _).
  destruct (Hc b c a Hb Hcc Ha) as (_ & _ & Hsym2 & _ & Hlt3 & _).
  lia.
Qed.

(** Elements that a consistent comparator ties with [x] are tied with one
    another. *)
Lemma consistentOn_tied (S : A → Prop) (x a b : A) :
  Js.consistentOn comparefn S → S x → S a → S b →
  Js.tied comparefn x a = true → Js.tied comparefn x b = true →
  Js.SortCompare comparefn a b = 0%Z.
Proof.
  unfold Js.tied. intros Hc Hx Ha Hb Hxa%Z.eqb_eq Hxb%Z.eqb_eq.
  destruct (Hc x a x Hx Ha Hx) as (_ & _ & Hsym & _).
  destruct (Hc a x b Ha Hx Hb) as (_ & _ & _ & Heq & _).
  auto.
Qed.

Lemma insert_perm (x : A) (l : list A) : Js.insert comparefn x l ≡ₚ x :: l.
Proof.
  induction l as [|y l IH]; simpl; [done|].
  case_decide; [|done].
  rewrite IH. apply Permutation_swap.
Qed.

Lemma insertionSort_perm (l : list A) : Js.insertionSort comparefn l ≡ₚ l.
Proof.
  induction l as [|x l IH]; simpl; [done|].
  by rewrite insert_perm, IH.
Qed.

(** Elements that the callback never puts strictly after one another keep
    their relative order. *)
Lemma insert_stable (q : A → bool) (x : A) (l : list A) :
  (∀ y, y ∈ l → q x = true → q y = true → (Js.SortCompare comparefn x y ≤ 0)%Z) →
  List.filter q (Js.insert comparefn x l) = List.filter q (x :: l).
Proof.
  intros Hq. induction l as [|y l IH]; [done|].
  cbn [Js.insert]. case_decide as Hlt; [|done].
  cbn [List.filter] in *. rewrite IH by (intros z Hz; apply Hq; by right).
  destruct (q x) eqn:Hx, (q y) eqn:Hy; try done.
  specialize (Hq y ltac:(left) eq_refl Hy). lia.
Qed.

Lemma insertionSort_stable (q : A → bool) (l : list A) :
  (∀ x y, x ∈ l → y ∈ l → q x = true → q y = true →
          (Js.SortCompare comparefn x y ≤ 0)%Z) →
  List.filter q (Js.insertionSort comparefn l) = List.filter q l.
Proof.
  induction l as [|x l IH]; intros Hq; [done|].
  cbn [Js.insertionSort]. rewrite insert_stable.
  - cbn [List.filter]. rewrite IH; [done|].
    intros y z Hy Hz. apply Hq; by right.
  - intros y Hy. rewrite insertionSort_perm in Hy. apply Hq; [left|by right].
Qed.

(** On elements that the callback orders consistently the result is sorted. *)
Lemma insert_sorted (P : A → Prop) (x : A) (l : list A) :
  (∀ a b, P a → P b → (0 < Js.SortCompare comparefn a b)%Z →
          (Js.SortCompare comparefn b a ≤ 0)%Z) →
  (∀ a b c, P a → P b → P c → (Js.SortCompare comparefn a b ≤ 0)%Z →
            (Js.SortCompare comparefn b c ≤ 0)%Z →
            (Js.SortCompare comparefn a c ≤ 0)%Z) →
  P x → Forall P l →
  StronglySorted (λ a b, (Js.SortCompare comparefn a b ≤ 0)%Z) l →
  StronglySorted (λ a b, (Js.SortCompare comparefn a b ≤ 0)%Z)
    (Js.insert comparefn x l).
Proof.
  intros Hanti Htrans Hx HP Hs.
  induction l as [|y l IH]; cbn [Js.insert].
  - repeat constructor.
  - apply Forall_cons in HP as [Hy HP].
    apply StronglySorted_cons in Hs as [Hyl Hs].
    case_decide as Hlt.
    + apply StronglySorted_cons. split; [|by apply IH].
      rewrite insert_perm. constructor; [by apply Hanti|done].
    + apply StronglySorted_cons. split; [|by apply StronglySorted_cons].
      constructor; [lia|].
      rewrite Forall_forall in Hyl, HP |- *. intros z Hz.
      apply (Htrans x y z); auto. lia.
Qed.

Lemma insertionSort_sorted (P : A → Prop) (l : list A) :
  (∀ a b, P a → P b → (0 < Js.SortCompare comparefn a b)%Z →
          (Js.SortCompare comparefn b a ≤ 0)%Z) →
  (∀ a b c, P a → P b → P c → (Js.SortCompare comparefn a b ≤ 0)%Z →
            (Js.SortCompare comparefn b c ≤ 0)%Z →
            (Js.SortCompare comparefn a c ≤ 0)%Z) →
  Forall P l →
  StronglySorted (λ a b, (Js.SortCompare comparefn a b ≤ 0)%Z)
    (Js.insertionSort comparefn l).
Proof.
  intros Hanti Htrans HP. induction l as [|x l IH]; cbn [Js.insertionSort].
  - constructor.
  - apply Forall_cons in HP as [Hx HP].
    apply (insert_sorted P); auto.
    by rewrite insertionSort_perm.
Qed.

End SortFacts.

(** The stable insertion meets ECMA-262. *)
Lemma insertionEngine_conforming : Js.Conforming Js.insertionEngine.
Proof.
  split; unfold Js.insertionEngine.
  - intros A comparefn l. apply insertionSort_perm.
  - intros A comparefn l Hc.
    apply (insertionSort_sorted comparefn (.∈ l)).
    + intros a b Ha Hb Hab.
      pose proof (consistentOn_antisym comparefn _ a b Hc Ha Hb Hab). lia.
    + intros a b c. by apply (consistentOn_le_trans comparefn (.∈ l)).
    + by apply Forall_forall.
  - intros A comparefn l x Hc Hx. apply insertionSort_stable.
    intros a b Ha Hb Hxa Hxb.
    rewrite (consistentOn_tied comparefn _ x a b Hc); [lia|done..].
Qed.

Lemma StronglySorted_lookup_lt {A} (R : A → A → Prop) (l : list A) i j a b :
  StronglySorted R l → i < j → l !! i = Some a → l !! j = Some b → R a b.
Proof.
  intros Hs. revert i j a b.
  induction Hs as [|x l Hs IH Hx]; intros i j a b Hij Hi Hj.
  - by rewrite lookup_nil in Hi.
  - destruct j as [|j]; [lia|]. destruct i as [|i]; simpl in *.
    + injection Hi as ->. rewrite Forall_forall in Hx.
      apply Hx, list_elem_of_lookup. eauto.
    + apply (IH i j); [lia|done..].
Qed.

Lemma filter_all_false {A} (f : A → bool) (l : list A) :
  (∀ x, x ∈ l → f x = false) → List.filter f l = [].
Proof.
  induction l as [|x l IH]; intros H; simpl; [done|].
  rewrite (H x) by left. apply IH. intros y Hy. apply H. by right.
Qed.

Lemma filter_swap {A} (f g : A → bool) (l : list A) :
  List.filter f (List.filter g l) = List.filter g (List.filter f l).
Proof.
  induction l as [|x l IH]; simpl; [done|].
  destruct (f x) eqn:Hf, (g x) eqn:Hg; simpl; rewrite ?Hf, ?Hg, IH; done.
Qed.

Lemma filter_refines {A} (f g : A → bool) (l : list A) :
  (∀ x, x ∈ l → f x = true → g x = true) →
  List.filter f (List.filter g l) = List.filter f l.
Proof.
  induction l as [|x l IH]; intros H; simpl; [done|].
  pose proof (H x ltac:(left)) as Hx.
  rewrite <- (IH (λ y Hy, H y ltac:(by right))).
  destruct (g x) eqn:Hg; simpl; [done|].
  destruct (f x); [|done]. by specialize (Hx eq_refl).
Qed.

(** On an engine that meets ECMA-262, elements that a consistent comparator
    ties with one another keep their order. *)
Lemma conforming_stable (sort : Js.Sort) {A} (comparefn : A → A → option Z)
    (q : A → bool) (l : list A) :
  Js.Conforming sort → Js.consistentOn comparefn (.∈ l) →
  (∀ x y, x ∈ l → y ∈ l → q x = true → q y = true →
          Js.tied comparefn x y = true) →
  List.filter q (sort A comparefn l) = List.filter q l.
Proof.
  intros Hsort Hc Hq.
  pose proof (Js.sort_permutation _ Hsort _ comparefn l) as Hperm.
  destruct (List.filter q l) as [|x rest] eqn:Hf.
  - apply filter_all_false. intros y Hy. rewrite Hperm in Hy.
    destruct (q y) eqn:Hqy; [|done].
    assert (In y (List.filter q l)) as Hin
      by (apply filter_In; split; [by apply list_elem_of_In|done]).
    by rewrite Hf in Hin.
  - assert (x ∈ l ∧ q x = true) as [Hx Hqx].
    { assert (In x (List.filter q l)) as Hin by (rewrite Hf; by left).
      apply filter_In in Hin as [Hin ?]. by apply list_elem_of_In in Hin. }
    rewrite <- Hf.
    rewrite <- (filter_refines q (Js.tied comparefn x) (sort A comparefn l)),
      <- (filter_refines q (Js.tied comparefn x) l).
    + by rewrite (Js.sort_stable _ Hsort).
    + intros y Hy. by apply Hq.
    + intros y Hy. rewrite Hperm in Hy. by apply Hq.
Qed.

(** ** Snapshot callbacks *)

Lemma withId_recordOf (id : string) (t : JsObject) : withId id t = recordOf (id, t).
Proof.
  unfold withId, recordOf. simpl. apply map_eq. intros f.
  rewrite lookup_union. destruct (decide (f = "id")) as [->|Hf].
  - rewrite lookup_insert_eq, lookup_singleton_eq. by destruct (t !! "id").
  - rewrite lookup_insert_ne, lookup_singleton_ne by done. by destruct (t !! f).
Qed.

Lemma entriesToRecords_payloadRecords (data : Snapshot) :
  entriesToRecords (snapshotEntries data) = payloadRecords data.
Proof.
  unfold entriesToRecords, payloadRecords. apply map_ext.
  intros [id t]. apply withId_recordOf.
Qed.

Lemma recordOf_has_id (e : string * JsObject) : is_Some (recordOf e !! "id").
Proof. unfold recordOf. rewrite lookup_insert_eq. by eexists. Qed.

Lemma recordOf_createdAt (e : string * JsObject) :
  recordOf e !! "createdAt" = e.2 !! "createdAt".
Proof. unfold recordOf. by rewrite lookup_insert_ne. Qed.

Section SynchroniserFacts.
Variable Date_parse : string → option Z.
Variable Array_sort : Js.Sort.

Lemma createdTime_creationTime (a : JsObject) :
  createdTime Date_parse a = creationTime Date_parse a.
Proof. unfold createdTime, creationTime, getTime. by destruct (a !! "createdAt"). Qed.

Lemma SortCompare_byCreatedAtDesc (a b : JsObject) (ta tb : Z) :
  creationTime Date_parse a = Some ta → creationTime Date_parse b = Some tb →
  byCreatedAtDesc Date_parse a b = Some (tb - ta)%Z.
Proof.
  intros Ha Hb. unfold byCreatedAtDesc.
  by rewrite (createdTime_creationTime a), (createdTime_creationTime b), Ha, Hb.
Qed.

Lemma datesValid_records (data : Snapshot) :
  datesValid Date_parse data = true →
  Forall (λ a, is_Some (creationTime Date_parse a)) (payloadRecords data).
Proof.
  unfold datesValid, payloadRecords. intros H.
  rewrite forallb_forall in H. apply Forall_forall. intros a Ha.
  apply list_elem_of_In, in_map_iff in Ha as (e & <- & Hin).
  specialize (H _ Hin). apply bool_decide_eq_true in H.
  unfold creationTime in *. by rewrite recordOf_createdAt.
Qed.

(** On records that all have a valid creation time the callback of the
    announcements sort is a consistent comparator. *)
Lemma byCreatedAtDesc_consistent (l : list JsObject) :
  Forall (λ a, is_Some (creationTime Date_parse a)) l →
  Js.consistentOn (byCreatedAtDesc Date_parse) (.∈ l).
Proof.
  intros Hl a b c Ha Hb Hc. rewrite Forall_forall in Hl.
  destruct (Hl a Ha) as [ta Hta], (Hl b Hb) as [tb Htb], (Hl c Hc) as [tc Htc].
  unfold Js.SortCompare.
  rewrite (SortCompare_byCreatedAtDesc a b ta tb), (SortCompare_byCreatedAtDesc a a ta ta),
    (SortCompare_byCreatedAtDesc b a tb ta), (SortCompare_byCreatedAtDesc b c tb tc),
    (SortCompare_byCreatedAtDesc a c ta tc) by done.
  simpl. repeat split; try lia. by eexists.
Qed.

Lemma materialize_announcements (data : Snapshot) :
  Js.Conforming Array_sort →
  materialize Date_parse Array_sort Announcements data
  = Array_sort _ (byCreatedAtDesc Date_parse) (payloadRecords data).
Proof.
  intros Hsort. rewrite <- entriesToRecords_payloadRecords.
  destruct data as [d|]; [done|]. simpl. symmetry.
  apply Permutation_nil. symmetry. apply (Js.sort_permutation _ Hsort).
Qed.

(** C2 (amended): on an engine that meets ECMA-262 and for a payload in
    which every [createdAt] parses to a valid time, the announcements
    callback materialises the records of the payload newest first, and
    records created at the same time keep the order in which the snapshot
    lists them. *)
Theorem announcements_newest_first_when_dates_valid (data : Snapshot) :
  Js.Conforming Array_sort →
  datesValid Date_parse data = true →
  descendingByCreatedAt Date_parse (materialize Date_parse Array_sort Announcements data)
  ∧ materialize Date_parse Array_sort Announcements data ≡ₚ payloadRecords data
  ∧ (∀ t, createdAtTime Date_parse t (materialize Date_parse Array_sort Announcements data)
          = createdAtTime Date_parse t (payloadRecords data))
  ∧ (∀ v, withCreatedAt v (materialize Date_parse Array_sort Announcements data)
          = withCreatedAt v (payloadRecords data)).
Proof.
  intros Hsort Hvalid. rewrite materialize_announcements by done.
  pose proof (datesValid_records data Hvalid) as HP.
  pose proof (byCreatedAtDesc_consistent _ HP) as Hc.
  pose proof (Js.sort_permutation _ Hsort _ (byCreatedAtDesc Date_parse)
                (payloadRecords data)) as Hperm.
  set (sorted := Array_sort _ (byCreatedAtDesc Date_parse) (payloadRecords data)) in *.
  assert (∀ x y tx ty,
            creationTime Date_parse x = Some tx → creationTime Date_parse y = Some ty →
            Js.tied (byCreatedAtDesc Date_parse) x y = bool_decide (tx = ty)) as Htied.
  { intros x y tx ty Hx Hy. unfold Js.tied, Js.SortCompare.
    rewrite (SortCompare_byCreatedAtDesc x y tx ty) by done. simpl.
    destruct (Z.eqb_spec (ty - tx) 0).
    - rewrite bool_decide_eq_true_2; [done|lia].
    - rewrite bool_decide_eq_false_2; [done|lia]. }
  split; [|split; [done|split]].
  - intros i j a b ta tb Hij Hi Hj Ha Hb.
    assert (Js.SortCompare (byCreatedAtDesc Date_parse) a b ≤ 0)%Z as Hle.
    { apply (StronglySorted_lookup_lt
               (λ x y, (Js.SortCompare (byCreatedAtDesc Date_parse) x y ≤ 0)%Z)
               sorted i j); [|done..].
      by apply (Js.sort_sorted _ Hsort). }
    unfold Js.SortCompare in Hle.
    rewrite (SortCompare_byCreatedAtDesc a b ta tb) in Hle by done. simpl in Hle. lia.
  - intros t. apply conforming_stable; [done..|].
    intros x y _ _ Hx%bool_decide_eq_true Hy%bool_decide_eq_true.
    rewrite (Htied x y t t) by done. by apply bool_decide_eq_true_2.
  - intros v. apply conforming_stable; [done..|].
    intros x y Hx _ Hvx%bool_decide_eq_true Hvy%bool_decide_eq_true.
    rewrite Forall_forall in HP. destruct (HP x Hx) as [t Ht].
    rewrite (Htied x y t t); [by apply bool_decide_eq_true_2|done|].
    unfold creationTime in *. by rewrite Hvy, <- Hvx.
Qed.

(** C7 (amended): for each of the four collections a [null] or empty
    payload materialises the empty sequence.  Any other payload
    materialises one record per entry: the body of the entry with an [id]
    field, which is the key of the entry unless the body has an [id] of its
    own, for the spread copies the body over the key.  The records are in
    the order of the entries for teachers, classes and students, and, on an
    engine that meets ECMA-262, in the order its sort gives them for
    announcements.  The callback stores exactly that value in the state
    cell of the collection. *)
Theorem snapshot_materialises_collection (c : Collection) :
  materialize Date_parse Array_sort c None = []
  ∧ (∀ data, c ≠ Announcements →
             materialize Date_parse Array_sort c data = payloadRecords data)
  ∧ (Js.Conforming Array_sort →
     materialize Date_parse Array_sort c (Some []) = []
     ∧ (∀ data, materialize Date_parse Array_sort c data ≡ₚ payloadRecords data)
     ∧ (∀ data key body,
          (key, body) ∈ snapshotEntries data →
          ∃ r, r ∈ materialize Date_parse Array_sort c data
               ∧ (body !! "id" = None → r !! "id" = Some key)
               ∧ (∀ own, body !! "id" = Some own → r !! "id" = Some own)
               ∧ (∀ f, f ≠ "id" → r !! f = body !! f)))
  ∧ (∀ data s, collectionOf c (collectionCallback Date_parse Array_sort c data s)
               = materialize Date_parse Array_sort c data).
Proof.
  assert (∀ data, c ≠ Announcements →
                  materialize Date_parse Array_sort c data = payloadRecords data) as Hlist.
  { intros data Hc. rewrite <- entriesToRecords_payloadRecords.
    destruct c, data; done. }
  split; [by destruct c|]. split; [done|]. split; [|intros data s; by destruct c].
  intros Hsort.
  assert (∀ data, materialize Date_parse Array_sort c data ≡ₚ payloadRecords data) as Hperm.
  { intros data. destruct c; try (by rewrite Hlist).
    rewrite materialize_announcements by done. apply (Js.sort_permutation _ Hsort). }
  split; [|split; [done|]].
  - apply Permutation_nil. symmetry. apply (Hperm (Some [])).
  - intros data key body Hin. exists (recordOf (key, body)).
    split; [|split; [|split]].
    + rewrite Hperm. unfold payloadRecords.
      apply list_elem_of_In, in_map, list_elem_of_In, Hin.
    + unfold recordOf. simpl. intros ->. by rewrite lookup_insert_eq.
    + unfold recordOf. simpl. intros own ->. by rewrite lookup_insert_eq.
    + intros f Hf. unfold recordOf. simpl. by rewrite lookup_insert_ne.
Qed.

End SynchroniserFacts.

(** ** Submit handlers *)

Lemma teacher_name d : TeacherDraft.toObject d !! "name" = Some (TeacherDraft.name d).
Proof. reflexivity. Qed.
Lemma teacher_username d : TeacherDraft.toObject d !! "username" = Some (TeacherDraft.username d).
Proof. reflexivity. Qed.
Lemma teacher_password d : TeacherDraft.toObject d !! "password" = Some (TeacherDraft.password d).
Proof. reflexivity. Qed.
Lemma teacher_subject d : TeacherDraft.toObject d !! "subject" = Some (TeacherDraft.subject d).
Proof. reflexivity. Qed.
Lemma class_name d : ClassDraft.toObject d !! "name" = Some (ClassDraft.name d).
Proof. reflexivity. Qed.
Lemma class_grade d : ClassDraft.toObject d !! "grade" = Some (ClassDraft.grade d).
Proof. reflexivity. Qed.
Lemma class_teacherId d : ClassDraft.toObject d !! "teacherId" = Some (ClassDraft.teacherId d).
Proof. reflexivity. Qed.
Lemma student_name d : StudentDraft.toObject d !! "name" = Some (StudentDraft.name d).
Proof. reflexivity. Qed.
Lemma student_username d : StudentDraft.toObject d !! "username" = Some (StudentDraft.username d).
Proof. reflexivity. Qed.
Lemma student_password d : StudentDraft.toObject d !! "password" = Some (StudentDraft.password d).
Proof. reflexivity. Qed.
Lemma student_classId d : StudentDraft.toObject d !! "classId" = Some (StudentDraft.classId d).
Proof. reflexivity. Qed.
Lemma announcement_title d :
  AnnouncementDraft.toObject d !! "title" = Some (AnnouncementDraft.title d).
Proof. reflexivity. Qed.
Lemma announcement_content d :
  AnnouncementDraft.toObject d !! "content" = Some (AnnouncementDraft.content d).
Proof. reflexivity. Qed.
Lemma announcement_priority d :
  AnnouncementDraft.toObject d !! "priority" = Some (AnnouncementDraft.priority d).
Proof. reflexivity. Qed.

Create Rewrite HintDb draft.
#[local] Hint Rewrite teacher_name teacher_username teacher_password teacher_subject
  class_name class_grade class_teacherId
  student_name student_username student_password student_classId
  announcement_title announcement_content announcement_priority : draft.

(** The check each handler makes is the check of the required fields. *)
Lemma draftComplete_teacher (s : State) :
  draftComplete Teachers s
  = negb (Js.not (TeacherDraft.name (newTeacher s))
          || Js.not (TeacherDraft.username (newTeacher s))
          || Js.not (TeacherDraft.password (newTeacher s))
          || Js.not (TeacherDraft.subject (newTeacher s))).
Proof.
  unfold draftComplete, draftObject, requiredFields, forallb.
  autorewrite with draft. unfold Js.truthy, Js.not. split_empty; reflexivity.
Qed.

Lemma draftComplete_class (s : State) :
  draftComplete Classes s
  = negb (Js.not (ClassDraft.name (newClass s))
          || Js.not (ClassDraft.grade (newClass s))
          || Js.not (ClassDraft.teacherId (newClass s))).
Proof.
  unfold draftComplete, draftObject, requiredFields, forallb.
  autorewrite with draft. unfold Js.truthy, Js.not. split_empty; reflexivity.
Qed.

Lemma draftComplete_student (s : State) :
  draftComplete Students s
  = negb (Js.not (StudentDraft.name (newStudent s))
          || Js.not (StudentDraft.username (newStudent s))
          || Js.not (StudentDraft.password (newStudent s))
          || Js.not (StudentDraft.classId (newStudent s))).
Proof.
  unfold draftComplete, draftObject, requiredFields, forallb.
  autorewrite with draft. unfold Js.truthy, Js.not. split_empty; reflexivity.
Qed.

Lemma draftComplete_announcement (s : State) :
  draftComplete Announcements s
  = negb (Js.not (AnnouncementDraft.title (newAnnouncement s))
          || Js.not (AnnouncementDraft.content (newAnnouncement s))).
Proof.
  unfold draftComplete, draftObject, requiredFields, forallb.
  autorewrite with draft. unfold Js.truthy, Js.not. split_empty; reflexivity.
Qed.

Lemma truthy_of_not (m : JsObject) (f v : string) :
  m !! f = Some v → Js.not v = false → Js.truthy (m !! f) = true.
Proof. intros -> Hv. unfold Js.truthy, Js.not in *. by rewrite Hv. Qed.


(** C1: the submit handler of each entity either finds every required
    field of the draft non-empty and issues exactly one push, to the path of
    the entity's collection, of a record that holds every required field
    with the draft's value and [createdAt] with the current time (once the
    push has resolved it reports success, resets the draft and closes the
    form; when the push is rejected it does nothing more), or finds a
    required field empty and then only reports the error, with the
    destructive toast "Error", "Please fill all fields": no push is issued
    and the state, the draft included, is unchanged. *)
Theorem submit_pushes_once_or_reports_missing_fields
  (e : Collection) (now : string) (resolved : bool) (s : State) :
  (draftComplete e s = true →
     ∃ record,
       pushes (submit e now resolved s).2 = [(collectionPath e, record)]
       ∧ Forall (λ f, record !! f = draftObject e s !! f
                      ∧ Js.truthy (record !! f) = true) (requiredFields e)
       ∧ record !! "createdAt" = Some now
       ∧ (resolved = true →
            (submit e now resolved s).2
            = [Push (collectionPath e) record; Toast "Success" (successMessage e) false]
            ∧ draftObject e (submit e now resolved s).1 = draftObject e initialState
            ∧ showModal (submit e now resolved s).1 = None)
       ∧ (resolved = false →
            submit e now resolved s = (s, [Push (collectionPath e) record])))
  ∧ (draftComplete e s = false →
       submit e now resolved s = (s, [Toast "Error" "Please fill all fields" true])
       ∧ pushes (submit e now resolved s).2 = []).
Proof.
  destruct e.
  - rewrite draftComplete_teacher. unfold submit, handleAddTeacher.
    destruct (_ || _) eqn:Hv; (split; intros Hc; [|done || by split]); try done.
    passed Hv. eexists. split; [by destruct resolved|].
    split; [|split; [reflexivity|split]].
    + repeat constructor; try reflexivity;
        (eapply truthy_of_not; [reflexivity|done]).
    + intros ->. repeat split; reflexivity.
    + intros ->. reflexivity.
  - rewrite draftComplete_class. unfold submit, handleAddClass.
    destruct (_ || _) eqn:Hv; (split; intros Hc; [|done || by split]); try done.
    passed Hv. eexists. split; [by destruct resolved|].
    split; [|split; [reflexivity|split]].
    + repeat constructor; try reflexivity;
        (eapply truthy_of_not; [reflexivity|done]).
    + intros ->. repeat split; reflexivity.
    + intros ->. reflexivity.
  - rewrite draftComplete_student. unfold submit, handleAddStudent.
    destruct (_ || _) eqn:Hv; (split; intros Hc; [|done || by split]); try done.
    passed Hv. eexists. split; [by destruct resolved|].
    split; [|split; [reflexivity|split]].
    + repeat constructor; try reflexivity;
        (eapply truthy_of_not; [reflexivity|done]).
    + intros ->. repeat split; reflexivity.
    + intros ->. reflexivity.
  - rewrite draftComplete_announcement. unfold submit, handleAddAnnouncement.
    destruct (_ || _) eqn:Hv; (split; intros Hc; [|done || by split]); try done.
    passed Hv. eexists. split; [by destruct resolved|].
    split; [|split; [reflexivity|split]].
    + repeat constructor; try reflexivity;
        (eapply truthy_of_not; [reflexivity|done]).
    + intros ->. repeat split; reflexivity.
    + intros ->. reflexivity.
Qed.

(** ** Foreign keys resolved at write time *)

Lemma Js_find_Some {A} (p : A → bool) (l : list A) (x : A) :
  Js.find p l = Some x
  ↔ ∃ l1 l2, l = l1 ++ x :: l2 ∧ p x = true ∧ Forall (λ y, p y = false) l1.
Proof.
  split.
  - induction l as [|y l IH]; simpl; [done|].
    destruct (p y) eqn:Hy.
    + intros [= ->]. by exists [], l.
    + intros (l1 & l2 & -> & Hx & Hl1)%IH.
      exists (y :: l1), l2. by repeat constructor.
  - intros (l1 & l2 & -> & Hx & Hl1).
    induction Hl1 as [|y l1 Hy _ IH]; simpl; [by rewrite Hx|by rewrite Hy].
Qed.

Lemma Js_find_None {A} (p : A → bool) (l : list A) :
  Forall (λ y, p y = false) l → Js.find p l = None.
Proof. induction 1 as [|y l Hy _ IH]; simpl; [done|by rewrite Hy]. Qed.

Lemma strictEq_true (a b : option string) : Js.strictEq a b = true ↔ a = b.
Proof. unfold Js.strictEq. apply bool_decide_eq_true. Qed.

Lemma strictEq_false (a b : option string) : Js.strictEq a b = false ↔ a ≠ b.
Proof. unfold Js.strictEq. apply bool_decide_eq_false. Qed.

(** The name a handler writes for a foreign key [key], looked up in [l]. *)
Lemma resolved_name_unmatched (key : string) (l : list JsObject) :
  (∀ r, r ∈ l → r !! "id" ≠ Some key) →
  Js.or (Js.find (λ r, Js.strictEq (r !! "id") (Some key)) l ≫= (λ r, r !! "name"))
    "Unassigned" = "Unassigned".
Proof.
  intros Hno. rewrite Js_find_None; [done|].
  apply Forall_forall. intros r Hr. by apply strictEq_false, Hno.
Qed.

Lemma resolved_name_first_match (key : string) (l1 l2 : list JsObject) (r : JsObject) :
  Forall (λ r', r' !! "id" ≠ Some key) l1 → r !! "id" = Some key →
  Js.or (Js.find (λ r, Js.strictEq (r !! "id") (Some key)) (l1 ++ r :: l2)
           ≫= (λ r, r !! "name")) "Unassigned"
  = Js.or (r !! "name") "Unassigned".
Proof.
  intros Hl1 Hr.
  replace (Js.find (λ r, Js.strictEq (r !! "id") (Some key)) (l1 ++ r :: l2))
    with (Some r); [done|].
  symmetry. apply Js_find_Some. exists l1, l2. split; [done|].
  split; [by apply strictEq_true|].
  eapply Forall_impl; [exact Hl1|]. intros r' Hr'. by apply strictEq_false.
Qed.

Lemma handleAddClass_pushes (now : string) (resolved : bool) (s : State) :
  draftComplete Classes s = true →
  ∃ record,
    pushes (handleAddClass now resolved s).2 = [("classes", record)]
    ∧ record !! "teacherName"
      = Some (Js.or (Js.find (λ t, Js.strictEq (t !! "id")
                                     (Some (ClassDraft.teacherId (newClass s))))
                       (teachers s) ≫= (λ t, t !! "name")) "Unassigned").
Proof.
  rewrite draftComplete_class. unfold handleAddClass.
  destruct (_ || _); [done|]. intros _.
  eexists. split; [by destruct resolved|reflexivity].
Qed.

Lemma handleAddStudent_pushes (now : string) (resolved : bool) (s : State) :
  draftComplete Students s = true →
  ∃ record,
    pushes (handleAddStudent now resolved s).2 = [("students", record)]
    ∧ record !! "className"
      = Some (Js.or (Js.find (λ c, Js.strictEq (c !! "id")
                                     (Some (StudentDraft.classId (newStudent s))))
                       (classes s) ≫= (λ c, c !! "name")) "Unassigned").
Proof.
  rewrite draftComplete_student. unfold handleAddStudent.
  destruct (_ || _); [done|]. intros _.
  eexists. split; [by destruct resolved|reflexivity].
Qed.

(** C5 (amended): a class draft that passes validation is pushed with
    [teacherName] "Unassigned" when no teacher of the local collection has
    the draft's [teacherId] as [id], and with the name of the first teacher
    that has it when that name is not empty; a student draft is pushed with
    [className] in the same way from the class collection. *)
Theorem foreign_key_name_or_unassigned (now : string) (resolved : bool) (s : State) :
  (draftComplete Classes s = true →
     ∃ record,
       pushes (handleAddClass now resolved s).2 = [("classes", record)]
       ∧ ((∀ t, t ∈ teachers s → t !! "id" ≠ Some (ClassDraft.teacherId (newClass s))) →
          record !! "teacherName" = Some "Unassigned")
       ∧ (∀ l1 t l2 n,
            teachers s = l1 ++ t :: l2 →
            Forall (λ t', t' !! "id" ≠ Some (ClassDraft.teacherId (newClass s))) l1 →
            t !! "id" = Some (ClassDraft.teacherId (newClass s)) →
            t !! "name" = Some n → n ≠ "" →
            record !! "teacherName" = Some n))
  ∧ (draftComplete Students s = true →
     ∃ record,
       pushes (handleAddStudent now resolved s).2 = [("students", record)]
       ∧ ((∀ c, c ∈ classes s → c !! "id" ≠ Some (StudentDraft.classId (newStudent s))) →
          record !! "className" = Some "Unassigned")
       ∧ (∀ l1 c l2 n,
            classes s = l1 ++ c :: l2 →
            Forall (λ c', c' !! "id" ≠ Some (StudentDraft.classId (newStudent s))) l1 →
            c !! "id" = Some (StudentDraft.classId (newStudent s)) →
            c !! "name" = Some n → n ≠ "" →
            record !! "className" = Some n)).
Proof.
  split; intros Hc.
  - destruct (handleAddClass_pushes now resolved s Hc) as (record & Hp & Hn).
    exists record. split; [done|]. rewrite Hn. split.
    + intros Hno. by rewrite resolved_name_unmatched.
    + intros l1 t l2 n -> Hl1 Ht Hname Hne.
      rewrite resolved_name_first_match, Hname by done.
      unfold Js.or. by apply String.eqb_neq in Hne as ->.
  - destruct (handleAddStudent_pushes now resolved s Hc) as (record & Hp & Hn).
    exists record. split; [done|]. rewrite Hn. split.
    + intros Hno. by rewrite resolved_name_unmatched.
    + intros l1 c l2 n -> Hl1 Ht Hname Hne.
      rewrite resolved_name_first_match, Hname by done.
      unfold Js.or. by apply String.eqb_neq in Hne as ->.
Qed.

(** C10: the fallback also applies to a matched record without a usable
    name.  When the first teacher whose [id] is the draft's [teacherId] has
    an empty or absent [name], the class is pushed with [teacherName]
    "Unassigned"; likewise [className] for a student whose matched class has
    an empty or absent [name]. *)
Theorem unassigned_when_matched_name_is_falsy (now : string) (resolved : bool) (s : State) :
  (∀ l1 t l2,
     draftComplete Classes s = true →
     teachers s = l1 ++ t :: l2 →
     Forall (λ t', t' !! "id" ≠ Some (ClassDraft.teacherId (newClass s))) l1 →
     t !! "id" = Some (ClassDraft.teacherId (newClass s)) →
     Js.truthy (t !! "name") = false →
     ∃ record,
       pushes (handleAddClass now resolved s).2 = [("classes", record)]
       ∧ record !! "teacherName" = Some "Unassigned")
  ∧ (∀ l1 c l2,
     draftComplete Students s = true →
     classes s = l1 ++ c :: l2 →
     Forall (λ c', c' !! "id" ≠ Some (StudentDraft.classId (newStudent s))) l1 →
     c !! "id" = Some (StudentDraft.classId (newStudent s)) →
     Js.truthy (c !! "name") = false →
     ∃ record,
       pushes (handleAddStudent now resolved s).2 = [("students", record)]
       ∧ record !! "className" = Some "Unassigned").
Proof.
  split.
  - intros l1 t l2 Hc Hl Hl1 Ht Hname.
    destruct (handleAddClass_pushes now resolved s Hc) as (record & Hp & Hn).
    exists record. split; [done|].
    rewrite Hn, Hl, resolved_name_first_match by done.
    unfold Js.truthy in Hname. unfold Js.or.
    destruct (t !! "name") as [n|]; [|done].
    by apply negb_false_iff in Hname as ->.
  - intros l1 c l2 Hc Hl Hl1 Ht Hname.
    destruct (handleAddStudent_pushes now resolved s Hc) as (record & Hp & Hn).
    exists record. split; [done|].
    rewrite Hn, Hl, resolved_name_first_match by done.
    unfold Js.truthy in Hname. unfold Js.or.
    destruct (c !! "name") as [n|]; [|done].
    by apply negb_false_iff in Hname as ->.
Qed.

(** ** The timetable subscription *)

Lemma schedulePath_inj (a b : string) : schedulePath a = schedulePath b → a = b.
Proof. unfold schedulePath. cbn. intros H. by simplify_eq. Qed.

Lemma timetableListeners_unsubscribe (id : nat) (w : World) :
  timetableListeners (setStore (unsubscribe id (store w)) w)
  = List.filter (λ l, negb (Nat.eqb (listenerId l) id)) (timetableListeners w).
Proof. unfold timetableListeners. simpl. apply filter_swap. Qed.

Lemma timetableListeners_listen (path : string) (cb : Callback) (w : World) :
  timetableListeners (listen path cb w).1.2
  = timetableListeners w
    ++ match cb with
       | OnTimetable =>
           [{| listenerId := nextId (store w); listenerPath := path;
               listenerCallback := OnTimetable |}]
       | OnCollection _ => []
       end.
Proof.
  unfold timetableListeners, listen. simpl. rewrite List.filter_app.
  by destruct cb.
Qed.

Lemma timetableListeners_after_unsubs (ids : list nat) (a : Adapter) (l : Listener) :
  l ∈ List.filter
        (λ l, match listenerCallback l with
              | OnTimetable => true
              | OnCollection _ => false
              end)
        (listeners (foldl (λ a id, unsubscribe id a) a ids)) →
  l ∈ List.filter
        (λ l, match listenerCallback l with
              | OnTimetable => true
              | OnCollection _ => false
              end)
        (listeners a).
Proof.
  revert a. induction ids as [|id ids IH]; intros a; simpl; [done|].
  intros H%IH. apply list_elem_of_In, filter_In in H as [Hin Hcb].
  apply list_elem_of_In, filter_In. split; [|done].
  simpl in Hin. by apply filter_In in Hin as [? _].
Qed.

Section MachineFacts.
Variable Date_parse : string → option Z.
Variable Array_sort : Js.Sort.

Lemma submit_keeps_timetable (e : Collection) (now : string) (resolved : bool) (s : State) :
  selectedTimetableClass (submit e now resolved s).1 = selectedTimetableClass s
  ∧ timetableData (submit e now resolved s).1 = timetableData s.
Proof.
  destruct e; unfold submit, handleAddTeacher, handleAddClass, handleAddStudent,
    handleAddAnnouncement; destruct (_ || _); try done; by destruct resolved.
Qed.

Lemma onChange_keeps_timetable (i : Input) (v : string) (s : State) :
  selectedTimetableClass (onChange i v s) = selectedTimetableClass s
  ∧ timetableData (onChange i v s) = timetableData s.
Proof. by destruct i. Qed.

Lemma deliverCollection_keeps_timetable (path : string) (data : Snapshot) (w : World) :
  selectedTimetableClass (ui (deliverCollection Date_parse Array_sort path data w))
  = selectedTimetableClass (ui w)
  ∧ timetableData (ui (deliverCollection Date_parse Array_sort path data w)) = timetableData (ui w).
Proof.
  unfold deliverCollection. simpl. generalize (ui w) as s.
  induction (listeners (store w)) as [|l ls IH]; intros s; simpl; [done|].
  destruct (IH (if String.eqb (listenerPath l) path
                then match listenerCallback l with
                     | OnCollection c => collectionCallback Date_parse Array_sort c data s
                     | OnTimetable => s
                     end
                else s)) as [-> ->].
  destruct (String.eqb _ _); [|done].
  destruct (listenerCallback l) as [[]|]; done.
Qed.

(** Only the timetable listeners see a timetable snapshot. *)
Lemma deliverTimetable_listeners (path : string) (data : option Timetable) (w : World) :
  ui (deliverTimetable path data w)
  = foldl (λ s l, if String.eqb (listenerPath l) path
                  then timetableCallback data s else s)
      (ui w) (timetableListeners w).
Proof.
  unfold deliverTimetable, timetableListeners. simpl. generalize (ui w) as s.
  induction (listeners (store w)) as [|l ls IH]; intros s; simpl; [done|].
  destruct (listenerCallback l); simpl; rewrite IH; [|done].
  by destruct (String.eqb _ _).
Qed.

Lemma setUi_same (w : World) : setUi (ui w) w = w.
Proof. by destruct w. Qed.

Lemma deliverTimetable_selected (path : string) (data : option Timetable) (w : World) :
  selectedTimetableClass (ui (deliverTimetable path data w))
  = selectedTimetableClass (ui w).
Proof.
  rewrite deliverTimetable_listeners. generalize (ui w) as s.
  induction (timetableListeners w) as [|l ls IH]; intros s; simpl; [done|].
  rewrite IH. by destruct (String.eqb _ _).
Qed.

Lemma timetableInv_initial : timetableInv initialWorld.
Proof. by split. Qed.

Lemma timetableInv_select (c : string) (w : World) :
  timetableInv w → mounted w = true →
  timetableInv (selectTimetableClass c w).1.
Proof.
  intros Hinv Hm. unfold selectTimetableClass.
  destruct (String.eqb_spec c (selectedTimetableClass (ui w))) as [|Hne]; [done|].
  set (w0 := setUi (setSelectedTimetableClass c (ui w)) w).
  assert (timetableListeners (timetableCleanup w0).1 = []
          ∧ timetableUnsub (timetableCleanup w0).1 = None
          ∧ mounted (timetableCleanup w0).1 = true
          ∧ ui (timetableCleanup w0).1 = setSelectedTimetableClass c (ui w))
    as (Hl & Hu & Hm1 & Hui).
  { unfold timetableCleanup, timetableInv in *. subst w0. simpl.
    destruct (timetableUnsub w) as [id|] eqn:Hu; simpl.
    - destruct Hinv as (_ & _ & Hl). repeat split; try done.
      change (timetableListeners (setStore (unsubscribe id (store w)) w) = []).
      rewrite timetableListeners_unsubscribe, Hl.
      unfold selectedListener. simpl. rewrite Nat.eqb_refl. reflexivity.
    - destruct Hinv as [Hl _]. split; [exact Hl|done]. }
  destruct (timetableCleanup w0) as [[u m cu tu st] c1]. simpl in *. subst u m tu.
  unfold timetableEffect, Js.not. simpl.
  destruct (String.eqb_spec c "") as [->|Hc]; simpl.
  - unfold timetableInv. simpl. split; [exact Hl|done].
  - unfold timetableInv, selectedListener. simpl. split; [done|]. split; [done|].
    unfold timetableListeners in *. simpl in *.
    by rewrite List.filter_app, Hl.
Qed.

Lemma timetableInv_setUi (s : State) (w : World) :
  selectedTimetableClass s = selectedTimetableClass (ui w) →
  (timetableUnsub w = None → timetableData s = timetableData (ui w)) →
  timetableInv w → timetableInv (setUi s w).
Proof.
  intros Hsel Hdata. unfold timetableInv, selectedListener. simpl.
  destruct (timetableUnsub w); rewrite Hsel; [done|].
  rewrite Hdata by done. done.
Qed.

Lemma timetableInv_mount (w : World) :
  timetableInv w → mounted w = false → timetableInv (mount w).1.
Proof.
  unfold timetableInv at 1. intros Hinv Hm.
  destruct (timetableUnsub w); [destruct Hinv; congruence|].
  destruct Hinv as [Hl _].
  unfold timetableInv. simpl. split; [|done].
  unfold timetableListeners in *. simpl.
  rewrite !List.filter_app, Hl. reflexivity.
Qed.

Lemma timetableInv_unmount (w : World) :
  timetableInv w → timetableInv (unmount w).1.
Proof.
  intros Hinv.
  assert (∀ l, l ∈ timetableListeners (collectionsCleanup w).1 →
               l ∈ timetableListeners w) as Hsub.
  { intros l. apply timetableListeners_after_unsubs. }
  unfold unmount, timetableCleanup.
  destruct (collectionsCleanup w) as [w1 c1] eqn:Hw1.
  assert (timetableUnsub w1 = timetableUnsub w) as Hu
    by (injection Hw1 as <- _; reflexivity).
  simpl in Hsub. unfold timetableInv in Hinv. rewrite <- Hu in Hinv.
  destruct (timetableUnsub w1) as [id|] eqn:Hu1; unfold timetableInv; simpl;
    rewrite ?Hu1.
  - split; [|done]. destruct Hinv as (_ & _ & Hl).
    change (timetableListeners (setStore (unsubscribe id (store w1)) w1) = []).
    rewrite timetableListeners_unsubscribe. apply filter_all_false.
    intros l Hin%Hsub. rewrite Hl in Hin. apply list_elem_of_singleton in Hin as ->.
    simpl. by rewrite Nat.eqb_refl.
  - split; [|done]. destruct Hinv as [Hl _].
    change (timetableListeners w1 = []).
    destruct (timetableListeners w1) as [|l ls]; [done|].
    specialize (Hsub l ltac:(left)). rewrite Hl in Hsub. by apply elem_of_nil in Hsub.
Qed.

Lemma timetableInv_step (ev : Event) (w : World) :
  timetableInv w → timetableInv (step Date_parse Array_sort ev w).1.
Proof.
  intros Hinv. destruct ev; simpl.
  - destruct (mounted w) eqn:Hm; [done|]. by apply timetableInv_mount.
  - destruct (mounted w); [|done]. by apply timetableInv_unmount.
  - destruct (mounted w); [|done]. simpl.
    apply timetableInv_setUi; [apply onChange_keeps_timetable| |done].
    intros _. apply onChange_keeps_timetable.
  - destruct (mounted w); [|done]. simpl. by apply timetableInv_setUi.
  - destruct (mounted w) eqn:Hm; [|done]. by apply timetableInv_select.
  - destruct (mounted w); [|done]. simpl.
    destruct (submit e now resolved (ui w)) as [s calls] eqn:Hs. simpl.
    pose proof (submit_keeps_timetable e now resolved (ui w)) as [Hsel Hdata].
    rewrite Hs in Hsel, Hdata. by apply timetableInv_setUi.
  - by destruct (mounted w).
  - pose proof (deliverCollection_keeps_timetable path data w) as [Hsel Hdata].
    unfold deliverCollection in *. by apply timetableInv_setUi.
  - pose proof (deliverTimetable_selected path data w) as Hsel.
    pose proof (deliverTimetable_listeners path data w) as Hui.
    unfold deliverTimetable in *. simpl in Hsel, Hui.
    apply timetableInv_setUi; [done| |done].
    intros Hu. unfold timetableInv in Hinv. rewrite Hu in Hinv.
    destruct Hinv as [Hl _]. rewrite Hui, Hl. reflexivity.
Qed.

Lemma timetableInv_run (evs : list Event) (w : World) :
  timetableInv w → timetableInv (run Date_parse Array_sort evs w).1.
Proof.
  revert w. induction evs as [|ev evs IH]; intros w Hinv; simpl; [done|].
  pose proof (timetableInv_step ev w Hinv) as Hstep.
  destruct (step Date_parse Array_sort ev w) as [w1 c1]. simpl in Hstep.
  specialize (IH w1 Hstep). by destruct (run Date_parse Array_sort evs w1).
Qed.

Lemma reachable_timetableInv (w : World) : reachable Date_parse Array_sort w → timetableInv w.
Proof. intros [evs <-]. apply timetableInv_run, timetableInv_initial. Qed.

(** A timetable snapshot changes nothing unless it is for the path of the
    selected class. *)
Lemma stale_timetable_snapshot (path : string) (data : option Timetable) (w : World) :
  timetableInv w →
  selectedTimetableClass (ui w) = "" ∨ path ≠ schedulePath (selectedTimetableClass (ui w)) →
  step Date_parse Array_sort (TimetableSnapshot path data) w = (w, []).
Proof.
  intros Hinv Hpath. simpl. f_equal.
  rewrite <- (setUi_same w) at 2. unfold deliverTimetable at 1. f_equal.
  pose proof (deliverTimetable_listeners path data w) as Hui.
  unfold deliverTimetable in Hui. simpl in Hui. rewrite Hui.
  unfold timetableInv in Hinv. destruct (timetableUnsub w) as [id|].
  - destruct Hinv as (_ & Hsel & ->).
    destruct Hpath as [Hempty|Hne]; [done|].
    unfold selectedListener. cbn [foldl listenerPath].
    assert (String.eqb (schedulePath (selectedTimetableClass (ui w))) path = false)
      as -> by (apply String.eqb_neq; congruence).
    reflexivity.
  - by destruct Hinv as [-> _].
Qed.

Lemma timetableCleanup_calls (w : World) :
  timetableInv w →
  (timetableCleanup w).2 = map Unsubscribe (map listenerId (timetableListeners w)).
Proof.
  unfold timetableInv, timetableCleanup.
  destruct (timetableUnsub w) as [id|].
  - by intros (_ & _ & ->).
  - by intros [-> _].
Qed.

Lemma selectTimetableClass_trace (c : string) (w : World) :
  c ≠ selectedTimetableClass (ui w) →
  (selectTimetableClass c w).2
  = (timetableCleanup w).2
    ++ (if String.eqb c "" then [] else [Listen (nextId (store w)) (schedulePath c)])
  ∧ selectedTimetableClass (ui (selectTimetableClass c w).1) = c
  ∧ timetableListeners (timetableCleanup (setUi (setSelectedTimetableClass c (ui w)) w)).1
    = List.filter
        (λ l, negb (bool_decide (Some (listenerId l) = timetableUnsub w)))
        (timetableListeners w).
Proof.
  intros Hne. unfold selectTimetableClass.
  destruct (String.eqb_spec c (selectedTimetableClass (ui w))); [done|].
  destruct w as [u m cu tu st]. unfold timetableCleanup, timetableEffect, Js.not.
  simpl. destruct tu as [id|]; simpl.
  - repeat split.
    + by destruct (String.eqb c "").
    + by destruct (String.eqb c "").
    + unfold timetableListeners. simpl. rewrite filter_swap.
      apply filter_ext. intros l. f_equal.
      destruct (Nat.eqb_spec (listenerId l) id) as [->|Hid].
      * by rewrite bool_decide_eq_true_2.
      * rewrite bool_decide_eq_false_2; [done|]. by intros [= ?].
  - repeat split.
    + by destruct (String.eqb c "").
    + by destruct (String.eqb c "").
    + unfold timetableListeners. simpl.
      induction (List.filter _ (listeners st)) as [|l ls IH]; simpl; [done|].
      by rewrite <- IH.
Qed.

(** C6: in every world the component can reach, the timetable holds no
    listener and an empty value while no class is selected; there is never
    more than one timetable listener, and it listens on the schedule path of
    the selected class; when the selection changes, the old listener is
    unsubscribed before the new one is registered, no listener exists in
    between, and a snapshot of the old path that arrives after the change,
    at once or after any further events, is not applied while another class
    is selected. *)
Theorem timetable_subscription_follows_selection (w : World) :
  reachable Date_parse Array_sort w →
  (mounted w = true → selectedTimetableClass (ui w) = "" →
     timetableData (ui w) = ∅ ∧ timetableListeners w = [])
  ∧ (∀ l, l ∈ timetableListeners w →
       timetableListeners w = [l]
       ∧ listenerPath l = schedulePath (selectedTimetableClass (ui w))
       ∧ selectedTimetableClass (ui w) ≠ "")
  ∧ (∀ c, mounted w = true → c ≠ selectedTimetableClass (ui w) →
       (step Date_parse Array_sort (SelectTimetableClass c) w).2
       = map Unsubscribe (map listenerId (timetableListeners w))
         ++ (if String.eqb c "" then []
             else [Listen (nextId (store w)) (schedulePath c)])
       ∧ timetableListeners
           (timetableCleanup (setUi (setSelectedTimetableClass c (ui w)) w)).1 = []
       ∧ (∀ l, l ∈ timetableListeners (step Date_parse Array_sort (SelectTimetableClass c) w).1 →
            listenerPath l = schedulePath c ∧ c ≠ "")
       ∧ (∀ data,
            step Date_parse Array_sort
              (TimetableSnapshot (schedulePath (selectedTimetableClass (ui w))) data)
              (step Date_parse Array_sort (SelectTimetableClass c) w).1
            = ((step Date_parse Array_sort (SelectTimetableClass c) w).1, [])))
  ∧ (∀ path data,
       selectedTimetableClass (ui w) = ""
       ∨ path ≠ schedulePath (selectedTimetableClass (ui w)) →
       step Date_parse Array_sort (TimetableSnapshot path data) w = (w, []))
  ∧ (∀ c evs data,
       let w' := (run Date_parse Array_sort (SelectTimetableClass c :: evs) w).1 in
       selectedTimetableClass (ui w') ≠ selectedTimetableClass (ui w) →
       step Date_parse Array_sort
         (TimetableSnapshot (schedulePath (selectedTimetableClass (ui w))) data) w'
       = (w', [])).
Proof.
  intros Hreach. pose proof (reachable_timetableInv w Hreach) as Hinv.
  split; [|split; [|split; [|split]]].
  - intros Hm Hsel. unfold timetableInv in Hinv.
    destruct (timetableUnsub w); [by destruct Hinv as (_ & ? & _)|].
    destruct Hinv as [Hl Hd]. by destruct (Hd Hm).
  - intros l Hl. unfold timetableInv in Hinv.
    destruct (timetableUnsub w) as [id|].
    + destruct Hinv as (_ & Hsel & Heq). rewrite Heq in Hl |- *.
      by apply list_elem_of_singleton in Hl as ->.
    + destruct Hinv as [Heq _]. rewrite Heq in Hl. by apply elem_of_nil in Hl.
  - intros c Hm Hne.
    pose proof (timetableInv_step (SelectTimetableClass c) w Hinv) as Hinv'.
    destruct (selectTimetableClass_trace c w Hne) as (Hcalls & Hsel' & Hmid).
    simpl in *. rewrite Hm in *. simpl in *.
    split; [by rewrite Hcalls, timetableCleanup_calls|].
    split.
    { rewrite Hmid. unfold timetableInv in Hinv.
      destruct (timetableUnsub w) as [id|].
      - destruct Hinv as (_ & _ & ->). simpl. by rewrite bool_decide_eq_true_2.
      - by destruct Hinv as [-> _]. }
    split.
    { intros l Hl. unfold timetableInv in Hinv'.
      destruct (timetableUnsub (selectTimetableClass c w).1) as [id|].
      - destruct Hinv' as (_ & Hc & Heq). rewrite Heq in Hl.
        apply list_elem_of_singleton in Hl as ->. simpl. by rewrite Hsel' in *.
      - destruct Hinv' as [Heq _]. rewrite Heq in Hl. by apply elem_of_nil in Hl. }
    intros data.
    pose proof (stale_timetable_snapshot
                  (schedulePath (selectedTimetableClass (ui w))) data
                  (selectTimetableClass c w).1 Hinv') as Hstale.
    simpl in Hstale. apply Hstale. right. rewrite Hsel'.
    intros Heq%schedulePath_inj. congruence.
  - intros path data Hpath. by apply stale_timetable_snapshot.
  - intros c evs data w' Hsel.
    apply stale_timetable_snapshot; [by apply timetableInv_run|].
    right. intros Heq%schedulePath_inj. congruence.
Qed.

End MachineFacts.

(** ** Paths handed to the adapter *)

Lemma collectionPath_allowed (e : Collection) : collectionPath e ∈ collectionPaths.
Proof. unfold collectionPaths. destruct e; in_written. Qed.

(** The calls of a submit handler. *)
Lemma submit_calls (e : Collection) (now : string) (resolved : bool) (s : State) :
  if draftComplete e s
  then ∃ record msg,
         (submit e now resolved s).2
         = Push (collectionPath e) record
           :: (if resolved then [Toast "Success" msg false] else [])
         ∧ (e = Announcements → record !! "author" = Some "Principal")
  else (submit e now resolved s).2 = [Toast "Error" "Please fill all fields" true].
Proof.
  destruct e.
  - rewrite draftComplete_teacher. unfold submit, handleAddTeacher.
    destruct (_ || _); simpl; [done|].
    eexists _, _. split; [by destruct resolved|done].
  - rewrite draftComplete_class. unfold submit, handleAddClass.
    destruct (_ || _); simpl; [done|].
    eexists _, _. split; [by destruct resolved|done].
  - rewrite draftComplete_student. unfold submit, handleAddStudent.
    destruct (_ || _); simpl; [done|].
    eexists _, _. split; [by destruct resolved|done].
  - rewrite draftComplete_announcement. unfold submit, handleAddAnnouncement.
    destruct (_ || _); simpl; [done|].
    eexists _, _. split; [by destruct resolved|reflexivity].
Qed.

Section PathFacts.
Variable Date_parse : string → option Z.
Variable Array_sort : Js.Sort.

Lemma mount_calls (w : World) :
  (mount w).2
  = [Listen (nextId (store w)) "teachers";
     Listen (S (nextId (store w))) "classes";
     Listen (S (S (nextId (store w)))) "students";
     Listen (S (S (S (nextId (store w))))) "announcements"].
Proof. reflexivity. Qed.

Lemma unmount_calls (w : World) (call : Call) :
  call ∈ (unmount w).2 → ∃ id, call = Unsubscribe id.
Proof.
  unfold unmount, collectionsCleanup, timetableCleanup. simpl.
  destruct (timetableUnsub w) as [id|]; simpl.
  - intros [Hin|Hin]%elem_of_app.
    + apply list_elem_of_fmap in Hin as (i & -> & _). by exists i.
    + apply list_elem_of_singleton in Hin as ->. by exists id.
  - rewrite app_nil_r. intros Hin.
    apply list_elem_of_fmap in Hin as (i & -> & _). by exists i.
Qed.

(** Where the pushes of a step come from. *)
Lemma step_push (ev : Event) (w : World) (path : string) (record : JsObject) :
  Push path record ∈ (step Date_parse Array_sort ev w).2 →
  ∃ e now resolved,
    ev = Submit e now resolved
    ∧ Push path record ∈ (submit e now resolved (ui w)).2.
Proof.
  destruct ev; simpl.
  - destruct (mounted w); [by intros ?%elem_of_nil|].
    rewrite mount_calls. intros Hin. from_written Hin.
  - destruct (mounted w); simpl; [|by intros ?%elem_of_nil].
    by intros [id ?]%unmount_calls.
  - destruct (mounted w); simpl; by intros ?%elem_of_nil.
  - destruct (mounted w); simpl; by intros ?%elem_of_nil.
  - destruct (mounted w); simpl; [|by intros ?%elem_of_nil].
    destruct (String.eqb_spec c (selectedTimetableClass (ui w))) as [->|Hne].
    + unfold selectTimetableClass. rewrite String.eqb_refl. by intros ?%elem_of_nil.
    + destruct (selectTimetableClass_trace c w Hne) as (-> & _ & _).
      unfold timetableCleanup.
      destruct (timetableUnsub w), (String.eqb c ""); simpl;
        intros Hin; from_written Hin.
  - destruct (mounted w); simpl; [|by intros ?%elem_of_nil].
    destruct (submit e now resolved (ui w)) as [s calls] eqn:Hs. simpl.
    intros Hin. exists e, now, resolved. by rewrite Hs.
  - destruct (mounted w); simpl; [|by intros ?%elem_of_nil].
    unfold clickRemove. destruct (_ !! _); intros Hin; from_written Hin.
  - by intros ?%elem_of_nil.
  - by intros ?%elem_of_nil.
Qed.

(** Every record that a snapshot callback stores has an [id]. *)
Lemma materialize_has_id (c : Collection) (data : Snapshot) (r : JsObject) :
  Js.Conforming Array_sort →
  r ∈ materialize Date_parse Array_sort c data → is_Some (r !! "id").
Proof.
  intros Hsort Hr.
  assert (r ∈ payloadRecords data) as Hin.
  { destruct c; try (rewrite <- entriesToRecords_payloadRecords; by destruct data).
    rewrite materialize_announcements in Hr by done.
    by rewrite (Js.sort_permutation _ Hsort) in Hr. }
  apply list_elem_of_In, in_map_iff in Hin as (e & <- & _). apply recordOf_has_id.
Qed.

Lemma recordsHaveId_callback (c : Collection) (data : Snapshot) (s : State) :
  Js.Conforming Array_sort → recordsHaveId s →
  recordsHaveId (collectionCallback Date_parse Array_sort c data s).
Proof.
  intros Hsort Hs c' r Hr.
  destruct c, c'; simpl in Hr;
    first [ exact (Hs Teachers r Hr) | exact (Hs Classes r Hr)
          | exact (Hs Students r Hr) | exact (Hs Announcements r Hr)
          | exact (materialize_has_id Teachers data r Hsort Hr)
          | exact (materialize_has_id Classes data r Hsort Hr)
          | exact (materialize_has_id Students data r Hsort Hr)
          | exact (materialize_has_id Announcements data r Hsort Hr) ].
Qed.

Lemma recordsHaveId_deliverCollection (path : string) (data : Snapshot) (w : World) :
  Js.Conforming Array_sort → recordsHaveId (ui w) →
  recordsHaveId (ui (deliverCollection Date_parse Array_sort path data w)).
Proof.
  intros Hsort. unfold deliverCollection. simpl. generalize (ui w) as s.
  induction (listeners (store w)) as [|l ls IH]; intros s Hs; simpl; [done|].
  apply IH. destruct (String.eqb _ _); [|done].
  destruct (listenerCallback l); [|done]. by apply recordsHaveId_callback.
Qed.

Lemma deliverTimetable_keeps_collections (path : string) (data : option Timetable)
    (w : World) (c : Collection) :
  collectionOf c (ui (deliverTimetable path data w)) = collectionOf c (ui w).
Proof.
  rewrite deliverTimetable_listeners. generalize (ui w) as s.
  induction (timetableListeners w) as [|l ls IH]; intros s; simpl; [done|].
  rewrite IH. destruct (String.eqb _ _); by destruct c.
Qed.

Lemma submit_keeps_collections (e : Collection) (now : string) (resolved : bool)
    (s : State) (c : Collection) :
  collectionOf c (submit e now resolved s).1 = collectionOf c s.
Proof.
  destruct e; unfold submit, handleAddTeacher, handleAddClass, handleAddStudent,
    handleAddAnnouncement; destruct (_ || _); try done; by destruct resolved, c.
Qed.

Lemma selectTimetableClass_keeps_collections (cls : string) (w : World) (c : Collection) :
  collectionOf c (ui (selectTimetableClass cls w).1) = collectionOf c (ui w).
Proof.
  unfold selectTimetableClass. destruct (String.eqb _ _); [done|].
  destruct w as [u m cu tu st]. unfold timetableCleanup, timetableEffect, Js.not.
  simpl. destruct tu; simpl; destruct (String.eqb cls ""); by destruct c.
Qed.

Lemma unmount_keeps_ui (w : World) : ui (unmount w).1 = ui w.
Proof.
  unfold unmount, collectionsCleanup, timetableCleanup. simpl.
  by destruct (timetableUnsub w).
Qed.

Lemma recordsHaveId_step (ev : Event) (w : World) :
  Js.Conforming Array_sort → recordsHaveId (ui w) →
  recordsHaveId (ui (step Date_parse Array_sort ev w).1).
Proof.
  intros Hsort Hinv. destruct ev; unfold step; cbn beta iota delta [fst].
  - destruct (mounted w); [done|]. intros c r Hr. destruct c; by apply elem_of_nil in Hr.
  - destruct (mounted w); [|done]. simpl. by rewrite unmount_keeps_ui.
  - destruct (mounted w); [|done]. simpl. intros c r Hr. apply (Hinv c r).
    by destruct i, c.
  - destruct (mounted w); [|done]. simpl. intros c r Hr. apply (Hinv c r).
    by destruct c.
  - destruct (mounted w); [|done]. simpl. intros c' r Hr. apply (Hinv c' r).
    by rewrite selectTimetableClass_keeps_collections in Hr.
  - destruct (mounted w); [|done]. simpl.
    pose proof (submit_keeps_collections e now resolved (ui w)) as Hs.
    destruct (submit e now resolved (ui w)) as [s calls]. simpl in *.
    intros c r Hr. apply (Hinv c r). by rewrite Hs in Hr.
  - by destruct (mounted w).
  - by apply recordsHaveId_deliverCollection.
  - intros c r Hr. apply (Hinv c r).
    by rewrite deliverTimetable_keeps_collections in Hr.
Qed.

Lemma recordsHaveId_run (evs : list Event) (w : World) :
  Js.Conforming Array_sort → recordsHaveId (ui w) →
  recordsHaveId (ui (run Date_parse Array_sort evs w).1).
Proof.
  intros Hsort. revert w. induction evs as [|ev evs IH]; intros w Hinv; simpl; [done|].
  pose proof (recordsHaveId_step ev w Hsort Hinv) as Hstep.
  destruct (step Date_parse Array_sort ev w) as [w1 c1]. simpl in Hstep.
  specialize (IH w1 Hstep). by destruct (run Date_parse Array_sort evs w1).
Qed.

Lemma reachable_recordsHaveId (w : World) :
  Js.Conforming Array_sort → reachable Date_parse Array_sort w → recordsHaveId (ui w).
Proof.
  intros Hsort [evs <-]. apply recordsHaveId_run; [done|].
  intros c r Hr. destruct c; by apply elem_of_nil in Hr.
Qed.

Lemma clickRemove_calls (c : Collection) (i : nat) (w : World) (r : JsObject) :
  collectionOf c (ui w) !! i = Some r →
  clickRemove c i w = [Remove (recordPath c (default "undefined" (r !! "id")))].
Proof.
  intros Hr. unfold clickRemove. rewrite Hr.
  destruct c, (r !! "id"); reflexivity.
Qed.

(** C8 (amended): the component registers listeners on exactly the four
    collection paths and, for the selected class, on [schedules/{classId}];
    the day is a key of the delivered value and not part of the path.  It
    pushes to exactly the four collection paths, and a delete button removes
    the record it belongs to at [{collection}/{id}], the [id] being the one
    the record holds, which every record of a reachable state has. *)
Theorem adapter_paths (ev : Event) (w : World) :
  (∀ call, call ∈ (step Date_parse Array_sort ev w).2 →
           callAllowed w (step Date_parse Array_sort ev w).1 call)
  ∧ (mounted w = false →
     (step Date_parse Array_sort Mount w).2
     = [Listen (nextId (store w)) "teachers";
        Listen (S (nextId (store w))) "classes";
        Listen (S (S (nextId (store w)))) "students";
        Listen (S (S (S (nextId (store w))))) "announcements"])
  ∧ (∀ classId, mounted w = true → classId ≠ "" →
     classId ≠ selectedTimetableClass (ui w) →
     Listen (nextId (store w)) ("schedules/" +:+ classId)
     ∈ (step Date_parse Array_sort (SelectTimetableClass classId) w).2)
  ∧ (∀ e now resolved, mounted w = true → draftComplete e (ui w) = true →
     ∃ record, Push (collectionPath e) record
               ∈ (step Date_parse Array_sort (Submit e now resolved) w).2
               ∧ collectionPath e ∈ collectionPaths)
  ∧ (∀ c i r, mounted w = true → collectionOf c (ui w) !! i = Some r →
     (∀ id, r !! "id" = Some id →
            (step Date_parse Array_sort (ClickRemove c i) w).2
            = [Remove (recordPath c id)])
     ∧ (r !! "id" = None →
            (step Date_parse Array_sort (ClickRemove c i) w).2
            = [Remove (recordPath c "undefined")])
     ∧ (Js.Conforming Array_sort → reachable Date_parse Array_sort w →
        ∃ id, r !! "id" = Some id
              ∧ (step Date_parse Array_sort (ClickRemove c i) w).2
                = [Remove (recordPath c id)])).
Proof.
  split; [|split; [|split; [|split]]].
  - intros call Hin. destruct call as [id p|id|p r|p|t d b]; simpl; try done.
    + destruct ev; simpl in *.
      * destruct (mounted w); [by apply elem_of_nil in Hin|].
        rewrite mount_calls in Hin. left. unfold collectionPaths.
        from_written Hin; injection Hin as _ <-; in_written.
      * destruct (mounted w); simpl in *; [|by apply elem_of_nil in Hin].
        by apply unmount_calls in Hin as [? ?].
      * destruct (mounted w); simpl in *; by apply elem_of_nil in Hin.
      * destruct (mounted w); simpl in *; by apply elem_of_nil in Hin.
      * destruct (mounted w); simpl in *; [|by apply elem_of_nil in Hin].
        destruct (String.eqb_spec c (selectedTimetableClass (ui w))) as [->|Hne].
        { unfold selectTimetableClass in Hin. rewrite String.eqb_refl in Hin.
          by apply elem_of_nil in Hin. }
        destruct (selectTimetableClass_trace c w Hne) as (Hc & -> & _).
        rewrite Hc in Hin. right. unfold timetableCleanup in Hin.
        destruct (String.eqb_spec c ""), (timetableUnsub w); simpl in Hin;
          from_written Hin; by injection Hin as _ <-.
      * destruct (mounted w); simpl in *; [|by apply elem_of_nil in Hin].
        pose proof (submit_calls e now resolved (ui w)) as Hs.
        destruct (submit e now resolved (ui w)) as [s calls]. simpl in *.
        destruct (draftComplete e (ui w)).
        { destruct Hs as (record & msg & -> & _).
          destruct resolved; from_written Hin. }
        { subst calls. from_written Hin. }
      * destruct (mounted w); simpl in *; [|by apply elem_of_nil in Hin].
        unfold clickRemove in Hin. destruct (_ !! _); from_written Hin.
      * by apply elem_of_nil in Hin.
      * by apply elem_of_nil in Hin.
    + apply step_push in Hin as (e & now & resolved & -> & Hin).
      pose proof (submit_calls e now resolved (ui w)) as Hs.
      destruct (draftComplete e (ui w)).
      * destruct Hs as (record & msg & Hs & _). rewrite Hs in Hin.
        assert (p = collectionPath e) as ->
          by (destruct resolved; from_written Hin; by injection Hin as <- _).
        apply collectionPath_allowed.
      * rewrite Hs in Hin. from_written Hin.
    + destruct ev; simpl in *.
      * destruct (mounted w); [by apply elem_of_nil in Hin|].
        rewrite mount_calls in Hin. from_written Hin.
      * destruct (mounted w); simpl in *; [|by apply elem_of_nil in Hin].
        by apply unmount_calls in Hin as [? ?].
      * destruct (mounted w); simpl in *; by apply elem_of_nil in Hin.
      * destruct (mounted w); simpl in *; by apply elem_of_nil in Hin.
      * destruct (mounted w); simpl in *; [|by apply elem_of_nil in Hin].
        destruct (String.eqb_spec c (selectedTimetableClass (ui w))) as [->|Hne].
        { unfold selectTimetableClass in Hin. rewrite String.eqb_refl in Hin.
          by apply elem_of_nil in Hin. }
        destruct (selectTimetableClass_trace c w Hne) as (Hc & _ & _).
        rewrite Hc in Hin. unfold timetableCleanup in Hin.
        destruct (String.eqb c ""), (timetableUnsub w); simpl in Hin;
          from_written Hin.
      * destruct (mounted w); simpl in *; [|by apply elem_of_nil in Hin].
        pose proof (submit_calls e now resolved (ui w)) as Hs.
        destruct (submit e now resolved (ui w)) as [s calls]. simpl in *.
        destruct (draftComplete e (ui w)).
        { destruct Hs as (record & msg & -> & _).
          destruct resolved; from_written Hin. }
        { subst calls. from_written Hin. }
      * destruct (mounted w); simpl in *; [|by apply elem_of_nil in Hin].
        destruct (collectionOf c (ui w) !! i) as [r|] eqn:Hr.
        { rewrite (clickRemove_calls c i w r Hr) in Hin.
          apply list_elem_of_singleton in Hin as [= ->].
          exists c, r. split; [|done]. apply list_elem_of_lookup. by exists i. }
        { unfold clickRemove in Hin. rewrite Hr in Hin. by apply elem_of_nil in Hin. }
      * by apply elem_of_nil in Hin.
      * by apply elem_of_nil in Hin.
  - intros Hm. simpl. by rewrite Hm, mount_calls.
  - intros c Hm Hc Hne. simpl. rewrite Hm. simpl.
    destruct (selectTimetableClass_trace c w Hne) as (-> & _ & _).
    apply String.eqb_neq in Hc as ->. apply elem_of_app. right. in_written.
  - intros e now resolved Hm Hc. simpl. rewrite Hm. simpl.
    pose proof (submit_calls e now resolved (ui w)) as Hs. rewrite Hc in Hs.
    destruct Hs as (record & msg & Hs & _). exists record.
    split; [|apply collectionPath_allowed].
    destruct (submit e now resolved (ui w)) as [s calls]. simpl in *.
    subst calls. in_written.
  - intros c i r Hm Hr. simpl. rewrite Hm. simpl.
    rewrite (clickRemove_calls c i w r Hr).
    split; [by intros id ->|]. split; [by intros ->|].
    intros Hsort Hreach.
    destruct (reachable_recordsHaveId w Hsort Hreach c r) as [id Hid].
    { apply list_elem_of_lookup. by exists i. }
    exists id. by rewrite Hid.
Qed.

(** C9: every record pushed to [announcements] carries the author
    "Principal"; the announcement form checks [title] and [content] only, so
    a draft with both non-empty is pushed with whatever [priority] it holds;
    the priority of a fresh draft, and of the draft after a push that
    resolved, is "normal". *)
Theorem announcement_author_and_priority (now : string) (resolved : bool) (s : State) :
  (∀ ev w record,
     Push "announcements" record ∈ (step Date_parse Array_sort ev w).2 →
     record !! "author" = Some "Principal")
  ∧ (AnnouncementDraft.title (newAnnouncement s) ≠ "" →
     AnnouncementDraft.content (newAnnouncement s) ≠ "" →
     ∃ record,
       pushes (handleAddAnnouncement now resolved s).2 = [("announcements", record)]
       ∧ record !! "author" = Some "Principal"
       ∧ record !! "priority" = Some (AnnouncementDraft.priority (newAnnouncement s))
       ∧ record !! "title" = Some (AnnouncementDraft.title (newAnnouncement s))
       ∧ record !! "content" = Some (AnnouncementDraft.content (newAnnouncement s))
       ∧ (resolved = true →
          AnnouncementDraft.priority
            (newAnnouncement (handleAddAnnouncement now resolved s).1) = "normal"))
  ∧ AnnouncementDraft.priority (newAnnouncement initialState) = "normal".
Proof.
  split; [|split; [|reflexivity]].
  - intros ev w record Hin.
    apply step_push in Hin as (e & t & r & -> & Hin).
    pose proof (submit_calls e t r (ui w)) as Hs.
    destruct (draftComplete e (ui w)).
    + destruct Hs as (record' & msg & Hs & Hauthor). rewrite Hs in Hin.
      assert (collectionPath e = "announcements" ∧ record' = record) as [Hp ->]
        by (destruct r; from_written Hin; by injection Hin as -> ->).
      apply Hauthor. by destruct e.
    + rewrite Hs in Hin. from_written Hin.
  - intros Ht Hc. unfold handleAddAnnouncement, Js.not.
    apply String.eqb_neq in Ht as ->. apply String.eqb_neq in Hc as ->. simpl.
    eexists. split; [by destruct resolved|].
    repeat split; try reflexivity. by intros ->.
Qed.

End PathFacts.

(** ** Derived views *)

Lemma Math_round_quotient (s c : Z) :
  (0 < c)%Z → Math_round (inject_Z s / inject_Z c) = ((2 * s + c) / (2 * c))%Z.
Proof.
  intros Hc. unfold Math_round. rewrite Zdiv_Qdiv. apply Qfloor_comp.
  rewrite inject_Z_plus, !inject_Z_mult. field.
  intros H. apply (inject_Z_injective c 0) in H. lia.
Qed.

Lemma rounded_quotient_bounds (s c : Z) :
  (0 < c)%Z → (0 ≤ s)%Z →
  let r := ((2 * s + c) / (2 * c))%Z in
  ((2 * r - 1) * c ≤ 2 * s < (2 * r + 1) * c)%Z
  ∧ (0 ≤ r)%Z
  ∧ (∀ k, (2 * s = (2 * k + 1) * c)%Z → r = (k + 1)%Z).
Proof.
  intros Hc Hs r.
  pose proof (Z.div_mod (2 * s + c) (2 * c) ltac:(lia)) as Hdiv.
  pose proof (Z.mod_pos_bound (2 * s + c) (2 * c) ltac:(lia)) as Hmod.
  fold r in Hdiv.
  assert ((2 * r - 1) * c ≤ 2 * s < (2 * r + 1) * c)%Z as Hb by nia.
  split; [done|]. split; [subst r; apply Z.div_pos; lia|].
  intros k Hk. nia.
Qed.

(** C4: the average class size is 0 without classes and otherwise the
    quotient of the two lengths rounded to the nearest integer, a tie going
    up; it is always a number.  The student/teacher ratio is the same
    function of the student and teacher collections. *)
Theorem average_class_size_rounds (students others : list JsObject) :
  avgClassSize students [] = 0%Z
  ∧ studentTeacherRatio students [] = 0%Z
  ∧ studentTeacherRatio students others = avgClassSize students others
  ∧ (others ≠ [] →
     let s := Z.of_nat (length students) in
     let c := Z.of_nat (length others) in
     let r := avgClassSize students others in
     r = Math_round (inject_Z s / inject_Z c)
     ∧ r = ((2 * s + c) / (2 * c))%Z
     ∧ ((2 * r - 1) * c ≤ 2 * s < (2 * r + 1) * c)%Z
     ∧ (0 ≤ r)%Z
     ∧ (∀ k, (2 * s = (2 * k + 1) * c)%Z → r = (k + 1)%Z)).
Proof.
  split; [done|]. split; [done|]. split; [done|].
  intros Hne s c r.
  assert (0 < c)%Z as Hc by (subst c; destruct others; [done|simpl; lia]).
  assert (r = Math_round (inject_Z s / inject_Z c)) as Hr.
  { subst r. unfold avgClassSize. destruct others; [done|reflexivity]. }
  split; [done|]. rewrite Hr, Math_round_quotient by done.
  split; [done|]. apply rounded_quotient_bounds; [done|subst s; lia].
Qed.

Section ReportFacts.
Variable Array_sort : Js.Sort.
Variable localeCompare : string → string → Z.

Lemma gradeEntry_count (students : list JsObject) (cls : JsObject) :
  count (gradeEntry students cls)
  = length (filter (λ s, s !! "classId" = cls !! "id") students).
Proof.
  unfold gradeEntry, Js.countIf, Js.strictEq. simpl.
  induction students as [|s ss IH]; simpl; [done|].
  rewrite filter_cons. case_bool_decide; case_decide; simpl; congruence.
Qed.

Lemma gradeEntry_name (students : list JsObject) (cls : JsObject) :
  name (gradeEntry students cls) = "Grade " +:+ default "undefined" (cls !! "grade").
Proof. unfold gradeEntry. simpl. by destruct (cls !! "grade"). Qed.

(** The callback of the enrollment sort is a consistent comparator. *)
Lemma byLabel_consistent (l : list GradeEntry) :
  Collation localeCompare →
  Js.consistentOn (λ a b, Some (localeCompare (name a) (name b))) (.∈ l).
Proof. intros H a b c _ _ _. exact (H (name a) (name b) (name c) I I I). Qed.

(** On an engine that meets ECMA-262 the view holds the entries of the
    classes, in the order of the collation. *)
Lemma enrollment_by_grade_order (classes students : list JsObject) :
  Js.Conforming Array_sort → Collation localeCompare →
  studentsByGrade Array_sort localeCompare classes students
  ≡ₚ gradeEntry students <$> classes
  ∧ StronglySorted (λ a b, (localeCompare (name a) (name b) ≤ 0)%Z)
      (studentsByGrade Array_sort localeCompare classes students).
Proof.
  intros Hsort Hcoll. split; [apply (Js.sort_permutation _ Hsort)|].
  exact (Js.sort_sorted _ Hsort _ (λ a b, Some (localeCompare (name a) (name b)))
           (map (gradeEntry students) classes)
           (byLabel_consistent (map (gradeEntry students) classes) Hcoll)).
Qed.

(** C3 (amended): the enrollment view holds one entry per class, labelled
    "Grade " followed by the class's grade and counting the students whose
    [classId] is the class's [id].  On an engine that meets ECMA-262 the
    entries are in the order of [localeCompare], the collation of the
    runtime's locale, on the labels, and entries whose labels the collation
    does not tell apart keep the order of their classes.  Two classes with
    6 and 4 students give two entries whose counts sum to 10. *)
Theorem enrollment_by_grade (classes students : list JsObject) :
  Js.Conforming Array_sort → Collation localeCompare →
  let view := studentsByGrade Array_sort localeCompare classes students in
  view ≡ₚ map (gradeEntry students) classes
  ∧ length view = length classes
  ∧ (∀ cls,
       (∀ g, cls !! "grade" = Some g → name (gradeEntry students cls) = "Grade " +:+ g)
       ∧ (cls !! "grade" = None → name (gradeEntry students cls) = "Grade undefined")
       ∧ count (gradeEntry students cls)
         = length (filter (λ s, s !! "classId" = cls !! "id") students))
  ∧ StronglySorted (λ a b, (localeCompare (name a) (name b) ≤ 0)%Z) view
  ∧ (∀ label,
       List.filter (sameRank localeCompare label) view
       = List.filter (sameRank localeCompare label) (map (gradeEntry students) classes))
  ∧ (∀ c1 c2,
       classes = [c1; c2] →
       length (filter (λ s, s !! "classId" = c1 !! "id") students) = 6 →
       length (filter (λ s, s !! "classId" = c2 !! "id") students) = 4 →
       length view = 2 ∧ sum_list_with count view = 10).
Proof.
  intros Hsort Hcoll view.
  pose proof (byLabel_consistent (map (gradeEntry students) classes) Hcoll) as Hc.
  assert (view ≡ₚ map (gradeEntry students) classes) as Hperm
    by apply (Js.sort_permutation _ Hsort).
  split; [done|]. split; [by rewrite Hperm, length_map|].
  split.
  { intros cls. rewrite gradeEntry_name, gradeEntry_count.
    split; [by intros g ->|]. split; [by intros ->|done]. }
  split.
  { exact (Js.sort_sorted _ Hsort _ (λ a b, Some (localeCompare (name a) (name b)))
             (map (gradeEntry students) classes) Hc). }
  split.
  - intros label. apply conforming_stable; [done..|].
    intros x y _ _ Hx%Z.eqb_eq Hy%Z.eqb_eq. unfold Js.tied. apply Z.eqb_eq.
    destruct (Hcoll label (name x) (name y) I I I) as (_ & _ & Hsym & _).
    destruct (Hcoll (name x) label (name y) I I I) as (_ & _ & _ & Heq & _).
    unfold Js.SortCompare in *. simpl in *. auto.
  - intros c1 c2 -> H1 H2. split; [by rewrite Hperm|].
    rewrite Hperm. cbn [map sum_list_with].
    rewrite !gradeEntry_count, H1, H2. reflexivity.
Qed.

End ReportFacts.

(** The collation of the concrete runs is a consistent comparator. *)
Lemma RootCollation_collation : Collation RootCollation.compare.
Proof.
  assert (∀ x, String.compare x x = Eq) as Hrefl.
  { intros x. pose proof (String.compare_antisym x x) as H.
    by destruct (String.compare x x). }
  assert (∀ x y, String.compare x y = Gt → String.compare y x = Lt) as Hgt.
  { intros x y. rewrite (String.compare_antisym y x).
    by destruct (String.compare x y). }
  assert (∀ x y, String.compare x y = Lt → String.compare y x = Gt) as Hlt.
  { intros x y. rewrite (String.compare_antisym y x).
    by destruct (String.compare x y). }
  assert (∀ x y z, String.compare x y = Lt → String.compare y z = Lt →
                   String.compare x z = Lt) as Htrans.
  { intros x y z Hxy Hyz.
    pose proof OrderedTypeEx.String_as_OT.cmp_lt as Hcmp.
    unfold OrderedTypeEx.String_as_OT.cmp in Hcmp.
    apply Hcmp. apply Hcmp in Hxy, Hyz.
    exact (OrderedTypeEx.String_as_OT.lt_trans _ _ _ Hxy Hyz). }
  intros a b c _ _ _. unfold Js.SortCompare, RootCollation.compare. simpl.
  generalize (RootCollation.sortKey a) as ka, (RootCollation.sortKey b) as kb,
    (RootCollation.sortKey c) as kc.
  intros ka kb kc.
  split; [by eexists|]. split; [by rewrite Hrefl|].
  pose proof (Hrefl ka). pose proof (Hrefl kc).
  pose proof (Hgt ka kb). pose proof (Hgt kb kc). pose proof (Hlt ka kc).
  pose proof (Hlt ka kb). pose proof (Hgt ka kc).
  pose proof (Htrans ka kb kc). pose proof (Htrans kc kb ka).
  pose proof (String.compare_eq_iff ka kb). pose proof (String.compare_eq_iff kb kc).
  pose proof (String.compare_eq_iff ka kc). pose proof (String.compare_eq_iff kb ka).
  pose proof (Hrefl kb). pose proof (Hlt kb kc). pose proof (Hgt kb ka). pose proof (Hlt kb ka).
  destruct (String.compare ka kb) eqn:Cab, (String.compare kb kc) eqn:Cbc,
    (String.compare ka kc) eqn:Cac, (String.compare kb ka) eqn:Cba;
    repeat split; intros; try lia; try done;
    exfalso; intuition congruence.
Qed.

(** ** Concrete runs *)

Example iso_epoch : IsoDate.parse "1970-01-01T00:00:00.000Z" = Some 0%Z.
Proof. vm_compute. reflexivity. Qed.

Example iso_2024 : IsoDate.parse "2024-03-01T12:30:15.250Z" = Some 1709296215250%Z.
Proof. vm_compute. reflexivity. Qed.

Example iso_not_a_date : IsoDate.parse "soon" = None.
Proof. vm_compute. reflexivity. Qed.

Example dated_announcements_run :
  materialize IsoDate.parse Js.insertionEngine Announcements Sample.datedPayload
  = [recordOf ("a2", Sample.announcement "Exams" "2024-03-01T12:30:15.250Z");
     recordOf ("a1", Sample.announcement "Welcome" "2024-01-01T08:00:00.000Z");
     recordOf ("a3", Sample.announcement "Holiday" "2024-01-01T08:00:00.000Z")].
Proof. vm_compute. reflexivity. Qed.

Lemma announcements_newest_first_witness :
  datesValid IsoDate.parse Sample.datedPayload = true
  ∧ descendingByCreatedAt IsoDate.parse
      (materialize IsoDate.parse Js.insertionEngine Announcements Sample.datedPayload)
  ∧ createdAtTime IsoDate.parse 1704096000000
      (materialize IsoDate.parse Js.insertionEngine Announcements Sample.datedPayload)
    = createdAtTime IsoDate.parse 1704096000000 (payloadRecords Sample.datedPayload).
Proof.
  split; [vm_compute; reflexivity|].
  destruct (announcements_newest_first_when_dates_valid IsoDate.parse Js.insertionEngine
              Sample.datedPayload insertionEngine_conforming)
    as (Hdesc & _ & Htime & _); [vm_compute; reflexivity|].
  split; [exact Hdesc|exact (Htime 1704096000000%Z)].
Defined.

(** C2 as stated fails: with a record that has no [createdAt] between an
    older and a newer record, the comparison callback yields [NaN] for every
    pair that involves it and is no consistent comparator, so ECMA-262 leaves
    the order to the engine.  On an engine that sorts by stable insertion,
    which meets ECMA-262, the three records stay in snapshot order and the
    older dated record precedes the newer one. *)
Lemma announcements_not_sorted_with_undated_record :
  Js.Conforming Js.insertionEngine
  ∧ byCreatedAtDesc IsoDate.parse
      (recordOf ("a1", Sample.announcement "Welcome" "2024-01-01T08:00:00.000Z"))
      (recordOf ("a2", {[ "title" := "Undated" ]})) = None
  ∧ materialize IsoDate.parse Js.insertionEngine Announcements Sample.undatedPayload
    = [recordOf ("a1", Sample.announcement "Welcome" "2024-01-01T08:00:00.000Z");
       recordOf ("a2", {[ "title" := "Undated" ]});
       recordOf ("a3", Sample.announcement "Exams" "2024-03-01T12:30:15.250Z")]
  ∧ ¬ descendingByCreatedAt IsoDate.parse
        (materialize IsoDate.parse Js.insertionEngine Announcements Sample.undatedPayload).
Proof.
  assert (materialize IsoDate.parse Js.insertionEngine Announcements Sample.undatedPayload
          = [recordOf ("a1", Sample.announcement "Welcome" "2024-01-01T08:00:00.000Z");
             recordOf ("a2", {[ "title" := "Undated" ]});
             recordOf ("a3", Sample.announcement "Exams" "2024-03-01T12:30:15.250Z")])
    as Hrun by (vm_compute; reflexivity).
  split; [exact insertionEngine_conforming|].
  split; [vm_compute; reflexivity|].
  split; [exact Hrun|].
  rewrite Hrun. intros Hdesc.
  assert (1709296215250 ≤ 1704096000000)%Z as Habs; [|lia].
  apply (Hdesc 0 2
           (recordOf ("a1", Sample.announcement "Welcome" "2024-01-01T08:00:00.000Z"))
           (recordOf ("a3", Sample.announcement "Exams" "2024-03-01T12:30:15.250Z")));
    [lia|reflexivity|reflexivity|vm_compute; reflexivity|vm_compute; reflexivity].
Qed.

Lemma snapshot_materialises_collection_witness :
  materialize IsoDate.parse Js.insertionEngine Teachers None = []
  ∧ materialize IsoDate.parse Js.insertionEngine Teachers Sample.shadowedPayload
    = payloadRecords Sample.shadowedPayload
  ∧ materialize IsoDate.parse Js.insertionEngine Announcements Sample.datedPayload
    ≡ₚ payloadRecords Sample.datedPayload.
Proof.
  destruct (snapshot_materialises_collection IsoDate.parse Js.insertionEngine Teachers)
    as (Hnull & Hlist & _).
  destruct (snapshot_materialises_collection IsoDate.parse Js.insertionEngine Announcements)
    as (_ & _ & Hsorted & _).
  destruct (Hsorted insertionEngine_conforming) as (_ & Hperm & _).
  split; [exact Hnull|]. split; [|exact (Hperm Sample.datedPayload)].
  apply Hlist. discriminate.
Defined.

(** C7 as stated fails: the body of the entry with key [k1] holds an [id]
    of its own, [k2].  The spread copies it over the key, the record of
    [k1] is stored with [id] [k2], as is the record of [k2], and the delete
    button of the first row removes [teachers/k2]. *)
Lemma snapshot_key_overridden_by_body_id :
  snapshotEntries Sample.shadowedPayload !! 0
  = Some ("k1", <["id" := "k2"]> {[ "name" := "Ada" ]})
  ∧ materialize IsoDate.parse Js.insertionEngine Teachers Sample.shadowedPayload
    = [<["id" := "k2"]> {[ "name" := "Ada" ]};
       <["id" := "k2"]> {[ "name" := "Grace" ]}]
  ∧ (λ r : JsObject, r !! "id")
      <$> materialize IsoDate.parse Js.insertionEngine Teachers Sample.shadowedPayload
    = [Some "k2"; Some "k2"]
  ∧ teachers (ui Sample.shadowed)
    = materialize IsoDate.parse Js.insertionEngine Teachers Sample.shadowedPayload
  ∧ (step IsoDate.parse Js.insertionEngine (ClickRemove Teachers 0) Sample.shadowed).2
    = [Remove "teachers/k2"].
Proof. repeat split; vm_compute; reflexivity. Qed.

Lemma submit_pushes_once_or_reports_missing_fields_witness :
  (draftComplete Teachers (setNewTeacher (Sample.teacherDraft "Logic") Sample.school) = true
   ∧ ∃ record,
       pushes (submit Teachers Sample.now true
                 (setNewTeacher (Sample.teacherDraft "Logic") Sample.school)).2
       = [("teachers", record)]
       ∧ record !! "createdAt" = Some Sample.now)
  ∧ (draftComplete Teachers (setNewTeacher (Sample.teacherDraft "") Sample.school) = false
     ∧ submit Teachers Sample.now true
         (setNewTeacher (Sample.teacherDraft "") Sample.school)
       = (setNewTeacher (Sample.teacherDraft "") Sample.school,
          [Toast "Error" "Please fill all fields" true])).
Proof.
  split.
  - split; [reflexivity|].
    destruct (submit_pushes_once_or_reports_missing_fields Teachers Sample.now true
                (setNewTeacher (Sample.teacherDraft "Logic") Sample.school))
      as [Hok _].
    destruct (Hok eq_refl) as (record & Hp & _ & Hc & _). by exists record.
  - split; [reflexivity|].
    destruct (submit_pushes_once_or_reports_missing_fields Teachers Sample.now true
                (setNewTeacher (Sample.teacherDraft "") Sample.school))
      as [_ Hmissing].
    exact (proj1 (Hmissing eq_refl)).
Defined.

Lemma foreign_key_name_or_unassigned_witness :
  (∃ record,
     pushes (handleAddClass Sample.now true
               (setNewClass (Sample.classDraft "t3") Sample.school)).2
     = [("classes", record)]
     ∧ record !! "teacherName" = Some "Grace")
  ∧ (∃ record,
     pushes (handleAddClass Sample.now true
               (setNewClass (Sample.classDraft "t9") Sample.school)).2
     = [("classes", record)]
     ∧ record !! "teacherName" = Some "Unassigned")
  ∧ (∃ record,
     pushes (handleAddStudent Sample.now true
               (setNewStudent (Sample.studentDraft "c1") Sample.school)).2
     = [("students", record)]
     ∧ record !! "className" = Some "6A").
Proof.
  split; [|split].
  - destruct (foreign_key_name_or_unassigned Sample.now true
                (setNewClass (Sample.classDraft "t3") Sample.school)) as [Hclass _].
    destruct (Hclass eq_refl) as (record & Hp & _ & Hmatch).
    exists record. split; [exact Hp|].
    apply (Hmatch [Sample.teacher "t1" "Ada"; Sample.teacher "t2" ""]
             (Sample.teacher "t3" "Grace") [] "Grace");
      [reflexivity| |reflexivity|reflexivity|discriminate].
    repeat constructor; discriminate.
  - destruct (foreign_key_name_or_unassigned Sample.now true
                (setNewClass (Sample.classDraft "t9") Sample.school)) as [Hclass _].
    destruct (Hclass eq_refl) as (record & Hp & Hnone & _).
    exists record. split; [exact Hp|].
    apply Hnone. intros t Ht.
    change (t ∈ [Sample.teacher "t1" "Ada"; Sample.teacher "t2" "";
                 Sample.teacher "t3" "Grace"]) in Ht.
    from_written Ht; subst t; discriminate.
  - destruct (foreign_key_name_or_unassigned Sample.now true
                (setNewStudent (Sample.studentDraft "c1") Sample.school)) as [_ Hstudent].
    destruct (Hstudent eq_refl) as (record & Hp & _ & Hmatch).
    exists record. split; [exact Hp|].
    apply (Hmatch [] (Sample.class "c1" "6A" "6" "t1")
             [Sample.class "c2" "" "10" "t3"] "6A");
      [reflexivity|constructor|reflexivity|reflexivity|discriminate].
Defined.

(** C5 as stated fails: the draft's [teacherId] is the [id] of the second
    teacher, whose name is the empty string, and the class is pushed with
    [teacherName] "Unassigned", not with that teacher's name; the same
    happens to [className] for the class with the empty name. *)
Lemma matched_record_with_empty_name_is_unassigned :
  draftComplete Classes (setNewClass (Sample.classDraft "t2") Sample.school) = true
  ∧ teachers (setNewClass (Sample.classDraft "t2") Sample.school) !! 1
    = Some (Sample.teacher "t2" "")
  ∧ Sample.teacher "t2" "" !! "id" = Some "t2"
  ∧ Sample.teacher "t2" "" !! "name" = Some ""
  ∧ pushes (handleAddClass Sample.now true
              (setNewClass (Sample.classDraft "t2") Sample.school)).2
    = [("classes",
        <["createdAt" := Sample.now]>
          (<["teacherName" := "Unassigned"]>
             (ClassDraft.toObject (Sample.classDraft "t2"))))]
  ∧ draftComplete Students (setNewStudent (Sample.studentDraft "c2") Sample.school) = true
  ∧ Sample.class "c2" "" "10" "t3" !! "name" = Some ""
  ∧ pushes (handleAddStudent Sample.now true
              (setNewStudent (Sample.studentDraft "c2") Sample.school)).2
    = [("students",
        <["createdAt" := Sample.now]>
          (<["className" := "Unassigned"]>
             (StudentDraft.toObject (Sample.studentDraft "c2"))))].
Proof. repeat split; vm_compute; reflexivity. Qed.

Lemma unassigned_when_matched_name_is_falsy_witness :
  ∃ record,
    pushes (handleAddClass Sample.now false
              (setNewClass (Sample.classDraft "t2") Sample.school)).2
    = [("classes", record)]
    ∧ record !! "teacherName" = Some "Unassigned".
Proof.
  destruct (unassigned_when_matched_name_is_falsy Sample.now false
              (setNewClass (Sample.classDraft "t2") Sample.school)) as [Hclass _].
  apply (Hclass [Sample.teacher "t1" "Ada"] (Sample.teacher "t2" "")
           [Sample.teacher "t3" "Grace"]);
    [reflexivity|reflexivity| |reflexivity|reflexivity].
  repeat constructor; discriminate.
Defined.

Example scenario_unknown_teacher :
  length (teachers Sample.school) = 3
  ∧ length (classes Sample.school) = 2
  ∧ pushes (handleAddClass Sample.now true
              (setNewClass (Sample.classDraft "t9") Sample.school)).2
    = [("classes",
        <["createdAt" := Sample.now]>
          (<["teacherName" := "Unassigned"]>
             (ClassDraft.toObject (Sample.classDraft "t9"))))].
Proof. repeat split; vm_compute; reflexivity. Qed.

Lemma announcement_author_and_priority_witness :
  ∃ record,
    pushes (handleAddAnnouncement Sample.now true
              (setNewAnnouncement (Sample.announcementDraft "whenever") Sample.school)).2
    = [("announcements", record)]
    ∧ record !! "author" = Some "Principal"
    ∧ record !! "priority" = Some "whenever".
Proof.
  destruct (announcement_author_and_priority IsoDate.parse Js.insertionEngine Sample.now true
              (setNewAnnouncement (Sample.announcementDraft "whenever") Sample.school))
    as (_ & Hform & _).
  destruct Hform as (record & Hp & Ha & Hprio & _); [discriminate|discriminate|].
  by exists record.
Defined.

Example collation_runs :
  RootCollation.compare "Grade 10" "Grade 6" = (-1)%Z
  ∧ RootCollation.compare "Grade a" "Grade B" = (-1)%Z
  ∧ RootCollation.compare "Grade a" "Grade A" = (-1)%Z
  ∧ RootCollation.compare "Grade A" "Grade ab" = (-1)%Z
  ∧ RootCollation.compare "Grade 6" "Grade 6" = 0%Z.
Proof. repeat split; vm_compute; reflexivity. Qed.

Example enrollment_run :
  studentsByGrade Js.insertionEngine RootCollation.compare Sample.classes Sample.students
  = [{| name := "Grade 10"; count := 4 |}; {| name := "Grade 6"; count := 6 |}].
Proof. vm_compute. reflexivity. Qed.

Lemma enrollment_by_grade_witness :
  StronglySorted (λ a b, (RootCollation.compare (name a) (name b) ≤ 0)%Z)
    (studentsByGrade Js.insertionEngine RootCollation.compare
       Sample.classes Sample.students)
  ∧ length (studentsByGrade Js.insertionEngine RootCollation.compare
              Sample.classes Sample.students) = 2
  ∧ sum_list_with count
      (studentsByGrade Js.insertionEngine RootCollation.compare
         Sample.classes Sample.students) = 10.
Proof.
  destruct (enrollment_by_grade Js.insertionEngine RootCollation.compare
              Sample.classes Sample.students
              insertionEngine_conforming RootCollation_collation)
    as (_ & _ & _ & Hsorted & _ & Hscenario).
  split; [exact Hsorted|].
  apply (Hscenario (Sample.class "c1" "6A" "6" "t1") (Sample.class "c2" "" "10" "t3"));
    vm_compute; reflexivity.
Defined.

(** C3 as stated fails: the entries are in the order of the collation and
    not in lexicographic order.  The classes of grades "B" and "a" give the
    labels "Grade B" and "Grade a", in this order and in lexicographic
    order, for the capital letters precede the small ones.  The collation
    puts "Grade a" first, and so does the view on every engine that meets
    ECMA-262. *)
Lemma enrollment_order_is_not_lexicographic :
  RootCollation.covered "Grade B" = true
  ∧ RootCollation.covered "Grade a" = true
  ∧ name <$> (gradeEntry [] <$> Sample.letterClasses) = ["Grade B"; "Grade a"]
  ∧ lexicographic ["Grade B"; "Grade a"]
  ∧ (∀ sort : Js.Sort, Js.Conforming sort →
       name <$> studentsByGrade sort RootCollation.compare Sample.letterClasses []
       = ["Grade a"; "Grade B"])
  ∧ ¬ lexicographic ["Grade a"; "Grade B"].
Proof.
  split; [reflexivity|]. split; [reflexivity|]. split; [reflexivity|].
  split; [|split].
  - repeat constructor. vm_compute. discriminate.
  - intros sort Hsort.
    destruct (enrollment_by_grade_order sort RootCollation.compare Sample.letterClasses []
                Hsort RootCollation_collation) as [Hperm Hsorted].
    change (gradeEntry [] <$> Sample.letterClasses)
      with [{| name := "Grade B"; count := 0 |}; {| name := "Grade a"; count := 0 |}]
      in Hperm.
    symmetry in Hperm.
    apply Permutation_length_2_inv in Hperm as [Heq|Heq]; rewrite Heq in *; [|done].
    apply StronglySorted_inv in Hsorted as [_ Hhd].
    apply Forall_inv in Hhd. vm_compute in Hhd. by destruct Hhd.
  - intros Hlex. apply StronglySorted_inv in Hlex as [_ Hhd].
    apply Forall_inv in Hhd. by apply Hhd.
Qed.

Example rounding_runs :
  avgClassSize Sample.students Sample.classes = 5%Z
  ∧ avgClassSize (take 1 Sample.students) Sample.classes = 1%Z
  ∧ avgClassSize (take 3 Sample.students) Sample.classes = 2%Z
  ∧ avgClassSize (take 5 Sample.students) Sample.classes = 3%Z
  ∧ avgClassSize (take 4 Sample.students) Sample.teachers = 1%Z
  ∧ avgClassSize (take 5 Sample.students) Sample.teachers = 2%Z
  ∧ studentTeacherRatio Sample.students Sample.teachers = 3%Z
  ∧ studentTeacherRatio Sample.students [] = 0%Z.
Proof. repeat split; vm_compute; reflexivity. Qed.

Lemma average_class_size_rounds_witness :
  avgClassSize (take 3 Sample.students) Sample.classes = 2%Z.
Proof.
  destruct (average_class_size_rounds (take 3 Sample.students) Sample.classes)
    as (_ & _ & _ & Hround).
  destruct Hround as (_ & _ & _ & _ & Htie); [discriminate|].
  apply (Htie 1%Z). reflexivity.
Defined.

Example viewingC1_run :
  (run IsoDate.parse Js.insertionEngine [Mount; SelectTimetableClass "c1"] initialWorld).2
  = [Listen 0 "teachers"; Listen 1 "classes"; Listen 2 "students";
     Listen 3 "announcements"; Listen 4 "schedules/c1"].
Proof. vm_compute. reflexivity. Qed.

Example switch_run :
  (step IsoDate.parse Js.insertionEngine (SelectTimetableClass "c2") Sample.viewingC1).2
  = [Unsubscribe 4; Listen 5 "schedules/c2"]
  ∧ (step IsoDate.parse Js.insertionEngine (SelectTimetableClass "") Sample.viewingC1).2
    = [Unsubscribe 4].
Proof. split; vm_compute; reflexivity. Qed.

Lemma timetable_subscription_follows_selection_witness :
  reachable IsoDate.parse Js.insertionEngine Sample.viewingC1
  ∧ (step IsoDate.parse Js.insertionEngine (SelectTimetableClass "c2") Sample.viewingC1).2
    = [Unsubscribe 4; Listen 5 "schedules/c2"]
  ∧ ∀ data,
      step IsoDate.parse Js.insertionEngine (TimetableSnapshot "schedules/c1" data)
        (step IsoDate.parse Js.insertionEngine (SelectTimetableClass "c2") Sample.viewingC1).1
      = ((step IsoDate.parse Js.insertionEngine (SelectTimetableClass "c2") Sample.viewingC1).1, []).
Proof.
  assert (reachable IsoDate.parse Js.insertionEngine Sample.viewingC1) as Hreach
    by exact (ex_intro _ [Mount; SelectTimetableClass "c1"] eq_refl).
  split; [exact Hreach|].
  destruct (timetable_subscription_follows_selection IsoDate.parse Js.insertionEngine Sample.viewingC1 Hreach)
    as (_ & _ & Hswitch & _ & _).
  destruct (Hswitch "c2") as (Hcalls & _ & _ & Hstale);
    [vm_compute; reflexivity|vm_compute; discriminate|].
  split; [exact Hcalls|exact Hstale].
Defined.

(** C8 as stated fails: selecting class [c1] registers the listener on
    [schedules/c1], which is none of the four collection paths and has no
    day component. *)
Lemma schedule_path_has_no_day_component :
  (run IsoDate.parse Js.insertionEngine [Mount; SelectTimetableClass "c1"] initialWorld).2
  = [Listen 0 "teachers"; Listen 1 "classes"; Listen 2 "students";
     Listen 3 "announcements"; Listen 4 "schedules/c1"]
  ∧ ("schedules/c1" ∉ collectionPaths)
  ∧ (∀ classId day, "schedules/c1" ≠ "schedules/" +:+ classId +:+ "/" +:+ day).
Proof.
  split; [vm_compute; reflexivity|]. split.
  - intros Hin. unfold collectionPaths in Hin. cbn [map collectionPath] in Hin.
    from_written Hin.
  - intros classId day H.
    destruct classId as [|a [|b [|c classId]]]; vm_compute in H; simplify_eq.
Qed.

Lemma adapter_paths_witness :
  Listen 5 "schedules/c2"
  ∈ (step IsoDate.parse Js.insertionEngine (SelectTimetableClass "c2") Sample.viewingC1).2
  ∧ (step IsoDate.parse Js.insertionEngine (ClickRemove Teachers 1) Sample.shadowed).2
    = [Remove "teachers/k2"].
Proof.
  split.
  - destruct (adapter_paths IsoDate.parse Js.insertionEngine Mount Sample.viewingC1)
      as (_ & _ & Hschedule & _).
    apply (Hschedule "c2"); [vm_compute; reflexivity|discriminate|vm_compute; discriminate].
  - destruct (adapter_paths IsoDate.parse Js.insertionEngine Mount Sample.shadowed)
      as (_ & _ & _ & _ & Hremove).
    destruct (Hremove Teachers 1 (<["id" := "k2"]> {[ "name" := "Grace" ]}))
      as (_ & _ & Hreach); [vm_compute; reflexivity|vm_compute; reflexivity|].
    destruct Hreach as (id & Hid & Hcalls);
      [exact insertionEngine_conforming
      |exact (ex_intro _ [Mount; CollectionSnapshot "teachers" Sample.shadowedPayload]
                eq_refl)|].
    vm_compute in Hid. injection Hid as <-. exact Hcalls.
Defined.
